(** * The Tortoise ORM user-database adapter ([fastapi_users/db/tortoise.py])

    A shallow embedding of [TortoiseUserDatabase]: the two tables the adapter
    talks to, the ORM calls it issues, and the methods [get], [get_by_email],
    [get_by_username], [get_by_oauth_account], [create], [update] and
    [delete], followed by the properties of its data-access contract.

    The adapter is asynchronous, but every method awaits its storage calls
    one after the other; a method is therefore a computation over the
    database state that either returns a value or raises an exception.  An
    exception keeps the state reached so far: the adapter opens no
    transaction around its statements. *)

From Stdlib Require Import List String Ascii NArith ZArith Bool Lia.
Import ListNotations.
Local Open Scope string_scope.
Local Open Scope N_scope.
Local Open Scope list_scope.

Set Implicit Arguments.

(** ** Data model *)

(** A UUID, as its 128-bit integer value. *)
Definition UUID4 := N.

(** Columns of [TortoiseBaseUserModel].  These are also the entries of
    [user.dict()] once ["oauth_accounts"] has been popped. *)
Record TortoiseBaseUserModel := mkUser {
  id : UUID4;
  email : string;
  hashed_password : string;
  is_active : bool;
  is_superuser : bool;
  is_verified : bool;
  username : string
}.

(** Columns of [TortoiseBaseOAuthAccountModel]; also one entry of the
    ["oauth_accounts"] list of [user.dict()]. *)
Module OAuth.
Record t := mk {
  id : UUID4;
  oauth_name : string;
  access_token : string;
  expires_at : option Z;
  refresh_token : option string;
  account_id : string;
  account_email : string
}.
End OAuth.

(** Modelled from the spec: the foreign key from an external-identity row to
    its owning user (related name [oauth_accounts]) is declared on the
    concrete model of the application, not on the abstract base class.  A row
    of the identity table is the account together with its owner; deleting an
    owner deletes its rows (cascade). *)
Record OAuthRow := mkRow {
  user : UUID4;
  account : OAuth.t
}.

(** The user representation [UD] handed to and returned by the adapter.
    [oauth_accounts] is [None] when [user.dict()] has no such key. *)
Record UD := mkUD {
  user_dict : TortoiseBaseUserModel;
  oauth_accounts : option (list OAuth.t)
}.

(** The backing store, tables in query order.  The identity table is there
    when the application declares an identity model, and with it the
    reverse relation [oauth_accounts] of the user model; [None] otherwise.
    A store built with an identity model belongs to an application that
    declares one: on a database without the table its calls read the table
    as empty. *)
Record DB := Build_DB {
  users : list TortoiseBaseUserModel;
  oauth_table : option (list OAuthRow)
}.

Definition oauth_rows (db : DB) : list OAuthRow :=
  match oauth_table db with
  | Some rs => rs
  | None => []
  end.

(** The application declares the relation [oauth_accounts]. *)
Definition declared (db : DB) : bool :=
  match oauth_table db with
  | Some _ => true
  | None => false
  end.

(** A database with both tables. *)
Definition mkDB (us : list TortoiseBaseUserModel) (rs : list OAuthRow) : DB :=
  Build_DB us (Some rs).

(** The database [db] with the user table [us]. *)
Definition with_users (db : DB) (us : list TortoiseBaseUserModel) : DB :=
  Build_DB us (oauth_table db).

Definition empty_db : DB := mkDB [] [].

(** ** Exceptions and the storage monad *)

Inductive exn :=
| DoesNotExist
| MultipleObjectsReturned
| IntegrityError
| ValidationError
| OverflowError
| NoValuesFetched
| FieldError.

Definition exn_eqb (a b : exn) : bool :=
  match a, b with
  | DoesNotExist, DoesNotExist => true
  | MultipleObjectsReturned, MultipleObjectsReturned => true
  | IntegrityError, IntegrityError => true
  | ValidationError, ValidationError => true
  | OverflowError, OverflowError => true
  | NoValuesFetched, NoValuesFetched => true
  | FieldError, FieldError => true
  | _, _ => false
  end.

Inductive outcome (A : Type) :=
| Returns (a : A)
| Raises (e : exn).
Arguments Raises {A} e.

Definition M (A : Type) := DB -> DB * outcome A.

Definition ret {A} (a : A) : M A := fun db => (db, Returns a).

Definition raise {A} (e : exn) : M A := fun db => (db, Raises e).

Definition bind {A B} (m : M A) (k : A -> M B) : M B :=
  fun db =>
    match m db with
    | (db', Returns a) => k a db'
    | (db', Raises e) => (db', Raises e)
    end.

(** [try: m except e: h] *)
Definition try_except {A} (m : M A) (e : exn) (h : M A) : M A :=
  fun db =>
    match m db with
    | (db', Raises e') => if exn_eqb e e' then h db' else (db', Raises e')
    | r => r
    end.

Declare Scope orm_scope.
Delimit Scope orm_scope with orm.
Notation "x <- m ;; k" := (bind m (fun x => k))
  (at level 61, m at next level, right associativity) : orm_scope.
Notation "m ;; k" := (bind m (fun _ => k))
  (at level 61, right associativity) : orm_scope.
Local Open Scope orm_scope.

Definition read {A} (f : DB -> A) : M A := fun db => (db, Returns (f db)).

Definition write (f : DB -> DB) : M unit := fun db => (f db, Returns tt).

(** ** The ORM calls the adapter issues

    The ORM and the database behind it are external to the adapter.  Their
    calls are modelled on the two tables as follows.  A table is the list of
    its rows in query order; an INSERT appends and an UPDATE replaces in
    place.  Before a row is written its values are checked against the
    columns the model classes declare: a string longer than [max_length=255]
    raises [ValidationError], and an integer that does not fit the integer
    column (64 bits, signed) raises [OverflowError] when it is bound to the
    statement.  The constraints are the declared ones: [pk=True] on both
    identifiers, [unique=True] on [email] and [username] (equality of the
    stored strings); a violated constraint raises [IntegrityError].  Strings
    are byte strings. *)

(** [iexact] compares [UPPER(column)] with [UPPER(value)]; letters are the
    ASCII letters. *)
Definition upper_ascii (c : ascii) : ascii :=
  let n := N_of_ascii c in
  if (97 <=? n) && (n <=? 122) then ascii_of_N (n - 32) else c.

Fixpoint upper (s : string) : string :=
  match s with
  | EmptyString => EmptyString
  | String c s' => String (upper_ascii c) (upper s')
  end.

Definition iexact (column value : string) : bool :=
  String.eqb (upper column) (upper value).

(** [max_length=255] of a [CharField]. *)
Definition fits (s : string) : bool := Nat.leb (String.length s) 255.

(** The three [CharField] columns of [TortoiseBaseUserModel]. *)
Definition valid_user (u : TortoiseBaseUserModel) : bool :=
  fits (email u) && fits (hashed_password u) && fits (username u).

(** The [CharField] columns of [TortoiseBaseOAuthAccountModel];
    [refresh_token] may be null. *)
Definition valid_account (a : OAuth.t) : bool :=
  fits (OAuth.oauth_name a) && fits (OAuth.access_token a)
  && match OAuth.refresh_token a with
     | Some s => fits s
     | None => true
     end
  && fits (OAuth.account_id a) && fits (OAuth.account_email a).

(** The [IntField] column [expires_at], which may be null. *)
Definition in_range (a : OAuth.t) : bool :=
  match OAuth.expires_at a with
  | Some z => ((- 2 ^ 63 <=? z) && (z <? 2 ^ 63))%Z
  | None => true
  end.

(** A loaded model instance: the row, and the related identity rows when
    they were prefetched. *)
Record Instance := mkInstance {
  row : TortoiseBaseUserModel;
  prefetched : option (list OAuth.t)
}.

Definition has_id (i : UUID4) (u : TortoiseBaseUserModel) : bool := id u =? i.

Definition owned_by (i : UUID4) (r : OAuthRow) : bool := user r =? i.

Definition not_owned_by (i : UUID4) (r : OAuthRow) : bool := negb (owned_by i r).

(** [email__iexact=e] and [username__iexact=n] *)
Definition by_email (e : string) (u : TortoiseBaseUserModel) : bool :=
  iexact (email u) e.

Definition by_username (n : string) (u : TortoiseBaseUserModel) : bool :=
  iexact (username u) n.

(** The reverse relation [model.oauth_accounts]. *)
Definition related (db : DB) (i : UUID4) : list OAuth.t :=
  map account (filter (owned_by i) (oauth_rows db)).

(** [.get(...)] on a result list: exactly one object, or an exception. *)
Definition single {A} (l : list A) : M A :=
  match l with
  | [] => raise DoesNotExist
  | [a] => ret a
  | _ :: _ :: _ => raise MultipleObjectsReturned
  end.

(** [model.get(id=i)] *)
Definition Model_get (i : UUID4) : M Instance :=
  l <- read (fun db => filter (has_id i) (users db)) ;;
  u <- single l ;;
  ret (mkInstance u None).

(** [model.filter(p).first()] *)
Definition Model_filter_first (p : TortoiseBaseUserModel -> bool)
  : M (option Instance) :=
  l <- read (fun db => filter p (users db)) ;;
  ret (option_map (fun u => mkInstance u None) (hd_error l)).

(** [query.prefetch_related("oauth_accounts")] on a single-object query *)
Definition prefetch_related (query : M Instance) : M Instance :=
  m <- query ;;
  rel <- read (fun db => related db (id (row m))) ;;
  ret (mkInstance (row m) (Some rel)).

(** The same on a [first()] query, whose result may be [None]. *)
Definition prefetch_related_opt (query : M (option Instance))
  : M (option Instance) :=
  r <- query ;;
  match r with
  | None => ret None
  | Some m =>
      rel <- read (fun db => related db (id (row m))) ;;
      ret (Some (mkInstance (row m) (Some rel)))
  end.

Definition oauth_match (oauth acct : string) (i : UUID4) (r : OAuthRow) : bool :=
  owned_by i r
  && String.eqb (OAuth.oauth_name (account r)) oauth
  && String.eqb (OAuth.account_id (account r)) acct.

(** [model.get(oauth_accounts__oauth_name=.., oauth_accounts__account_id=..)]:
    the join of the two tables, one result per matching pair.  The filter
    names the relation [oauth_accounts]: where the user model has no such
    relation the query is refused with [FieldError]. *)
Definition Model_get_by_oauth (oauth acct : string) : M Instance :=
  known <- read declared ;;
  if known then
    l <- read (fun db =>
           flat_map (fun u =>
             map (fun _ => u)
                 (filter (oauth_match oauth acct (id u)) (oauth_rows db)))
             (users db)) ;;
    u <- single l ;;
    ret (mkInstance u None)
  else raise FieldError.

(** [user_db_model.from_tortoise_orm(user)]: the instance translated to the
    external representation.  The relation is part of the result when the
    representation declares it ([has_oauth]); it is read from the instance,
    which raises [NoValuesFetched] when the relation was not prefetched. *)
Definition from_tortoise_orm (has_oauth : bool) (m : Instance) : M UD :=
  if has_oauth then
    match prefetched m with
    | Some rel => ret (mkUD (row m) (Some rel))
    | None => raise NoValuesFetched
    end
  else ret (mkUD (row m) None).

Definition same_key (a b : TortoiseBaseUserModel) : bool :=
  (id a =? id b) || String.eqb (email a) (email b)
  || String.eqb (username a) (username b).

(** [model.save()] on a new instance: the values are checked, then the
    INSERT is refused when the primary key or one of the two unique columns
    is taken. *)
Definition save_new (u : TortoiseBaseUserModel) : M unit :=
  if valid_user u then
    us <- read users ;;
    if existsb (same_key u) us then raise IntegrityError
    else write (fun db => with_users db (users db ++ [u]))
  else raise ValidationError.

Definition clashes (u v : TortoiseBaseUserModel) : bool :=
  negb (id v =? id u)
  && (String.eqb (email v) (email u) || String.eqb (username v) (username u)).

(** The row [v] after an UPDATE that sets the row with the primary key of
    [u] to [u]. *)
Definition replace_row (u v : TortoiseBaseUserModel) : TortoiseBaseUserModel :=
  if has_id (id u) v then u else v.

(** [model.save()] on a loaded instance: the values are checked, then the
    UPDATE of the row with that primary key is refused when another row
    holds the email or username. *)
Definition save_loaded (u : TortoiseBaseUserModel) : M unit :=
  if valid_user u then
    us <- read users ;;
    if existsb (clashes u) us then raise IntegrityError
    else write (fun db => with_users db (map (replace_row u) (users db)))
  else raise ValidationError.

(** [model.oauth_accounts.all().delete()] *)
Definition related_delete (i : UUID4) : M unit :=
  write (fun db => mkDB (users db) (filter (not_owned_by i) (oauth_rows db))).

Fixpoint distinct (l : list UUID4) : bool :=
  match l with
  | [] => true
  | x :: l' => negb (existsb (N.eqb x) l') && distinct l'
  end.

Definition pk (r : OAuthRow) : UUID4 := OAuth.id (account r).

(** The rows [objs] can be added to the table [rs]: their primary keys are
    new and pairwise distinct. *)
Definition insertable (rs objs : list OAuthRow) : bool :=
  distinct (map pk objs)
  && forallb (fun i => negb (existsb (N.eqb i) (map pk rs))) (map pk objs).

(** The rows of a bulk INSERT go to the database one after the other: the
    first row whose integer does not fit, or whose primary key is among the
    keys [taken] so far, fails the statement. *)
Fixpoint first_refusal (taken : list UUID4) (objs : list OAuthRow) : option exn :=
  match objs with
  | [] => None
  | r :: objs' =>
      if in_range (account r) then
        if existsb (N.eqb (pk r)) taken then Some IntegrityError
        else first_refusal (pk r :: taken) objs'
      else Some OverflowError
  end.

(** What refuses the bulk INSERT of [objs] into the table [rs], if anything:
    the values of every row are checked before the statement is sent. *)
Definition refusal (rs objs : list OAuthRow) : option exn :=
  if forallb (fun r => valid_account (account r)) objs
  then first_refusal (map pk rs) objs
  else Some ValidationError.

(** [oauth_account_model.bulk_create(objects)]: one INSERT for the whole
    list, of which nothing is kept when it is refused. *)
Definition bulk_create (objs : list OAuthRow) : M unit :=
  rs <- read oauth_rows ;;
  match refusal rs objs with
  | None => write (fun db => mkDB (users db) (oauth_rows db ++ objs))
  | Some e => raise e
  end.

(** [model.filter(id=i).delete()]: the rows with that identifier go, and
    with them the identity rows they own. *)
Definition Model_filter_delete (i : UUID4) : M unit :=
  write (fun db =>
    if existsb (has_id i) (users db) then
      Build_DB (filter (fun u => negb (has_id i u)) (users db))
               (option_map (filter (not_owned_by i)) (oauth_table db))
    else db).

(** ** The adapter *)

(** [user_db_model]: whether the external representation declares
    [oauth_accounts]; [oauth_account_model]: whether the store was given an
    identity model ([false] for [None]). *)
Record TortoiseUserDatabase := mkStore {
  user_db_model : bool;
  oauth_account_model : bool
}.

Section Adapter.

Variable self : TortoiseUserDatabase.

Definition get (i : UUID4) : M (option UD) :=
  try_except
    (let query := Model_get i in
     let query :=
       if oauth_account_model self then prefetch_related query else query in
     user <- query ;;
     pydantic_user <- from_tortoise_orm (user_db_model self) user ;;
     ret (Some pydantic_user))
    DoesNotExist
    (ret None).

Definition get_by_email (e : string) : M (option UD) :=
  let query := Model_filter_first (by_email e) in
  let query :=
    if oauth_account_model self then prefetch_related_opt query else query in
  user <- query ;;
  match user with
  | None => ret None
  | Some user =>
      pydantic_user <- from_tortoise_orm (user_db_model self) user ;;
      ret (Some pydantic_user)
  end.

Definition get_by_username (n : string) : M (option UD) :=
  let query := Model_filter_first (by_username n) in
  let query :=
    if oauth_account_model self then prefetch_related_opt query else query in
  user <- query ;;
  match user with
  | None => ret None
  | Some user =>
      pydantic_user <- from_tortoise_orm (user_db_model self) user ;;
      ret (Some pydantic_user)
  end.

Definition get_by_oauth_account (oauth acct : string) : M (option UD) :=
  try_except
    (let query := prefetch_related (Model_get_by_oauth oauth acct) in
     user <- query ;;
     pydantic_user <- from_tortoise_orm (user_db_model self) user ;;
     ret (Some pydantic_user))
    DoesNotExist
    (ret None).

(** Truth value of [oauth_accounts] in [if oauth_accounts and ...]: [None]
    and the empty list are both false. *)
Definition truthy (o : option (list OAuth.t)) : bool :=
  match o with
  | Some (_ :: _) => true
  | _ => false
  end.

Definition accounts_of (o : option (list OAuth.t)) : list OAuth.t :=
  match o with
  | Some l => l
  | None => []
  end.

Definition create (u : UD) : M UD :=
  let oauth_accounts := oauth_accounts u in
  let model := user_dict u in
  save_new model ;;
  (if truthy oauth_accounts && oauth_account_model self then
     let oauth_account_objects :=
       map (mkRow (id model)) (accounts_of oauth_accounts) in
     bulk_create oauth_account_objects
   else ret tt) ;;
  ret u.

(** [for field in user_dict: setattr(model, field, user_dict[field])], the
    identifier having been popped from [user_dict]. *)
Definition setattrs (model user_dict : TortoiseBaseUserModel)
  : TortoiseBaseUserModel :=
  mkUser (id model) (email user_dict) (hashed_password user_dict)
         (is_active user_dict) (is_superuser user_dict)
         (is_verified user_dict) (username user_dict).

Definition update (u : UD) : M UD :=
  let user_dict := user_dict u in
  let oauth_accounts := oauth_accounts u in
  model <- Model_get (id user_dict) ;;
  let model := setattrs (row model) user_dict in
  save_loaded model ;;
  (if truthy oauth_accounts && oauth_account_model self then
     related_delete (id model) ;;
     let oauth_account_objects :=
       map (mkRow (id model)) (accounts_of oauth_accounts) in
     bulk_create oauth_account_objects
   else ret tt) ;;
  ret u.

Definition delete (u : UD) : M unit :=
  Model_filter_delete (id (user_dict u)).

End Adapter.

(** ** Derived notions *)

(** The external representation of a stored row, as every lookup builds it. *)
Definition translate (self : TortoiseUserDatabase) (db : DB)
  (u : TortoiseBaseUserModel) : UD :=
  mkUD u (if user_db_model self then Some (related db (id u)) else None).

(** An identity row carrying the pair (provider, provider account id). *)
Definition oauth_key (oauth acct : string) (r : OAuthRow) : bool :=
  String.eqb (OAuth.oauth_name (account r)) oauth
  && String.eqb (OAuth.account_id (account r)) acct.

(** Every identity row is owned by a stored user (the foreign key). *)
Definition fk_ok (db : DB) : bool :=
  forallb (fun r => existsb (has_id (user r)) (users db)) (oauth_rows db).

(** No two user rows share an identifier (the primary key). *)
Definition ids_ok (db : DB) : bool := distinct (map id (users db)).

(** Every stored row passes the checks of its columns. *)
Definition columns_ok (db : DB) : bool :=
  forallb valid_user (users db)
  && forallb (fun r => valid_account (account r) && in_range (account r))
       (oauth_rows db).

(** The answer of a lookup that has found the row [u]: the translation of
    the row, which needs the relation loaded when the representation
    declares it. *)
Definition found (self : TortoiseUserDatabase) (db : DB)
  (u : TortoiseBaseUserModel) : DB * outcome (option UD) :=
  if oauth_account_model self || negb (user_db_model self)
  then (db, Returns (Some (translate self db u)))
  else (db, Raises NoValuesFetched).

(** The input [u] with its identity set dropped. *)
Definition without_identities (u : UD) : UD := mkUD (user_dict u) None.

(** [u] is an instance of the representation the store was built with. *)
Definition instance_of (self : TortoiseUserDatabase) (u : UD) : bool :=
  Bool.eqb (user_db_model self)
           (match oauth_accounts u with Some _ => true | None => false end).

(** The result list of the query of [get_by_oauth_account]: the join of the
    two tables on the pair (provider, provider account id). *)
Definition oauth_join (oauth acct : string) (db : DB)
  : list TortoiseBaseUserModel :=
  flat_map (fun u =>
    map (fun _ => u) (filter (oauth_match oauth acct (id u)) (oauth_rows db)))
    (users db).

(** A call of one of the three writing methods, and the store it leaves,
    whether it returns or raises. *)
Inductive call :=
| Create (u : UD)
| Update (u : UD)
| Delete (u : UD).

Definition after_call (self : TortoiseUserDatabase) (db : DB) (c : call) : DB :=
  match c with
  | Create u => fst (create self u db)
  | Update u => fst (update self u db)
  | Delete u => fst (delete u db)
  end.

(** The store a sequence of calls builds from the empty one. *)
Definition after_calls (self : TortoiseUserDatabase) (cs : list call) : DB :=
  fold_left (after_call self) cs empty_db.

(** An account carrying the pair (provider, provider account id). *)
Definition account_key (oauth acct : string) (a : OAuth.t) : bool :=
  String.eqb (OAuth.oauth_name a) oauth && String.eqb (OAuth.account_id a) acct.

(** The record a call is made with. *)
Definition record_of (c : call) : UD :=
  match c with
  | Create u | Update u | Delete u => u
  end.

(** ** Sample data *)

Module Sample.

Definition store : TortoiseUserDatabase := mkStore true true.

Definition store_without_identities : TortoiseUserDatabase := mkStore true false.

Definition alice : TortoiseBaseUserModel :=
  mkUser 1 "A@x.com" "h1" true false false "alice".

Definition bob : TortoiseBaseUserModel :=
  mkUser 2 "a@x.com" "h2" true false false "Alice".

Definition carol : TortoiseBaseUserModel :=
  mkUser 3 "c@x.com" "h3" true false true "carol".

Definition google : OAuth.t :=
  OAuth.mk 10 "google" "token-g" (Some 3600%Z) None "g1" "a@x.com".

Definition github : OAuth.t :=
  OAuth.mk 11 "github" "token-h" None (Some "refresh-h") "h7" "a@x.com".

(** The store after [create] of alice with the google identity. *)
Definition db_alice : DB := mkDB [alice] [mkRow 1 google].

(** The store after [create] of alice, then of bob. *)
Definition db_alice_bob : DB := mkDB [alice; bob] [mkRow 1 google].

(** An application that declares no identity model. *)
Definition plain_store : TortoiseUserDatabase := mkStore false false.

Definition plain_db : DB := Build_DB [alice] None.

End Sample.

Ltac run :=
  unfold single, bind, ret, raise, read, write, try_except in *;
  cbv beta zeta in *.

Ltac db_simpl :=
  cbn [users oauth_table oauth_rows declared mkDB with_users fst snd] in *.

Section ListFacts.

Context {A : Type}.
Variable p : A -> bool.

Lemma filter_none (l : list A) : existsb p l = false -> filter p l = [].
Proof.
  induction l as [|a l IH]; simpl; [reflexivity|].
  destruct (p a); simpl; [discriminate|exact IH].
Qed.

Lemma filter_first (l1 l2 : list A) (a : A) :
  existsb p l1 = false -> p a = true ->
  filter p (l1 ++ a :: l2) = a :: filter p l2.
Proof.
  intros H1 Ha. rewrite filter_app, (filter_none _ H1). simpl.
  now rewrite Ha.
Qed.

Lemma existsb_filter_negb (l : list A) :
  existsb p (filter (fun a => negb (p a)) l) = false.
Proof.
  induction l as [|a l IH]; simpl; [reflexivity|].
  destruct (p a) eqn:E; simpl; [exact IH|]. now rewrite E.
Qed.

Lemma hd_filter_sound (l : list A) (a : A) :
  hd_error (filter p l) = Some a -> In a l /\ p a = true.
Proof.
  intros H. apply filter_In.
  destruct (filter p l) as [|b l']; simpl in H; [discriminate|].
  injection H as ->. now left.
Qed.

Lemma hd_filter_unique (l : list A) (a : A) :
  In a l -> p a = true ->
  (forall b, In b l -> p b = true -> b = a) ->
  hd_error (filter p l) = Some a.
Proof.
  induction l as [|b l IH]; simpl; intros Hin Ha Huniq; [contradiction|].
  destruct (p b) eqn:Hb.
  - simpl. f_equal. apply Huniq; auto.
  - apply IH; auto. destruct Hin as [->|Hin]; [congruence|exact Hin].
Qed.

End ListFacts.

(** ** Reading the store *)

Section Lookups.

Variable self : TortoiseUserDatabase.

Lemma found_loaded (db : DB) (u : TortoiseBaseUserModel) :
  oauth_account_model self = true \/ user_db_model self = false ->
  found self db u = (db, Returns (Some (translate self db u))).
Proof. unfold found. now intros [-> | ->]; [|rewrite orb_true_r]. Qed.

Lemma found_not_loaded (db : DB) (u : TortoiseBaseUserModel) :
  oauth_account_model self = false -> user_db_model self = true ->
  found self db u = (db, Raises NoValuesFetched).
Proof. unfold found. now intros -> ->. Qed.

(** [get] in closed form: it reads, and answers by the number of rows with
    the identifier. *)
Lemma get_eq (i : UUID4) (db : DB) :
  get self i db =
  match filter (has_id i) (users db) with
  | [] => (db, Returns None)
  | [u] => found self db u
  | _ :: _ :: _ => (db, Raises MultipleObjectsReturned)
  end.
Proof.
  unfold get, Model_get, prefetch_related, from_tortoise_orm, found, translate.
  destruct (oauth_account_model self), (user_db_model self); run;
    destruct (filter (has_id i) (users db)) as [|u [|v l]]; reflexivity.
Qed.

Lemma first_eq (p : TortoiseBaseUserModel -> bool) (db : DB) :
  (let query := Model_filter_first p in
   let query :=
     if oauth_account_model self then prefetch_related_opt query else query in
   user <- query ;;
   match user with
   | None => ret None
   | Some user =>
       pydantic_user <- from_tortoise_orm (user_db_model self) user ;;
       ret (Some pydantic_user)
   end) db
  = match hd_error (filter p (users db)) with
    | None => (db, Returns None)
    | Some u => found self db u
    end.
Proof.
  unfold Model_filter_first, prefetch_related_opt, from_tortoise_orm, found,
    translate.
  destruct (oauth_account_model self), (user_db_model self); run;
    destruct (filter p (users db)) as [|u l]; reflexivity.
Qed.

(** [get_by_email] and [get_by_username] in closed form: the first row of
    the filtered table, if any. *)
Lemma get_by_email_eq (e : string) (db : DB) :
  get_by_email self e db
  = match hd_error (filter (by_email e) (users db)) with
    | None => (db, Returns None)
    | Some u => found self db u
    end.
Proof. apply first_eq. Qed.

Lemma get_by_username_eq (n : string) (db : DB) :
  get_by_username self n db
  = match hd_error (filter (by_username n) (users db)) with
    | None => (db, Returns None)
    | Some u => found self db u
    end.
Proof. apply first_eq. Qed.

(** [get_by_oauth_account] in closed form: it reads, and answers by the
    number of results of the join. *)
Lemma get_by_oauth_account_eq (oauth acct : string) (db : DB) :
  get_by_oauth_account self oauth acct db =
  if declared db then
    match oauth_join oauth acct db with
    | [] => (db, Returns None)
    | [u] => (db, Returns (Some (translate self db u)))
    | _ :: _ :: _ => (db, Raises MultipleObjectsReturned)
    end
  else (db, Raises FieldError).
Proof.
  unfold get_by_oauth_account, prefetch_related, Model_get_by_oauth,
    from_tortoise_orm, translate, oauth_join.
  destruct (user_db_model self); run; destruct (declared db); try reflexivity;
    destruct (flat_map _ (users db)) as [|u [|v l]]; reflexivity.
Qed.

Lemma join_none (oauth acct : string) (db : DB) :
  existsb (oauth_key oauth acct) (oauth_rows db) = false ->
  oauth_join oauth acct db = [].
Proof.
  intros H. unfold oauth_join.
  induction (users db) as [|u us IH]; simpl; [reflexivity|].
  rewrite IH, app_nil_r.
  rewrite filter_none; [reflexivity|].
  clear IH. induction (oauth_rows db) as [|r rs IHr]; simpl in *; [reflexivity|].
  apply orb_false_iff in H as [Hr Hrs].
  rewrite (IHr Hrs), orb_false_r. unfold oauth_match, oauth_key in *.
  rewrite <- andb_assoc, Hr. apply andb_false_r.
Qed.

End Lookups.

(** ** Writing the store *)

Section Writes.

Variable self : TortoiseUserDatabase.

(** [create] in closed form. *)
Lemma create_eq (u : UD) (db : DB) :
  create self u db =
  let i := id (user_dict u) in
  if valid_user (user_dict u) then
    if existsb (same_key (user_dict u)) (users db)
    then (db, Raises IntegrityError)
    else
      let us := users db ++ [user_dict u] in
      if truthy (oauth_accounts u) && oauth_account_model self then
        let objs := map (mkRow i) (accounts_of (oauth_accounts u)) in
        match refusal (oauth_rows db) objs with
        | None => (mkDB us (oauth_rows db ++ objs), Returns u)
        | Some e => (with_users db us, Raises e)
        end
      else (with_users db us, Returns u)
  else (db, Raises ValidationError).
Proof.
  unfold create, save_new, bulk_create.
  destruct (valid_user (user_dict u));
    destruct (truthy (oauth_accounts u) && oauth_account_model self); run;
    try reflexivity;
    destruct (existsb (same_key (user_dict u)) (users db)); try reflexivity.
  db_simpl. now destruct (refusal _ _).
Qed.

(** [update] in closed form. *)
Lemma update_eq (u : UD) (db : DB) :
  update self u db =
  match filter (has_id (id (user_dict u))) (users db) with
  | [] => (db, Raises DoesNotExist)
  | [u0] =>
      let model := setattrs u0 (user_dict u) in
      if valid_user model then
        if existsb (clashes model) (users db) then (db, Raises IntegrityError)
        else
          let us := map (replace_row model) (users db) in
          if truthy (oauth_accounts u) && oauth_account_model self then
            let kept := filter (not_owned_by (id model)) (oauth_rows db) in
            let objs :=
              map (mkRow (id model)) (accounts_of (oauth_accounts u)) in
            match refusal kept objs with
            | None => (mkDB us (kept ++ objs), Returns u)
            | Some e => (mkDB us kept, Raises e)
            end
          else (with_users db us, Returns u)
      else (db, Raises ValidationError)
  | _ :: _ :: _ => (db, Raises MultipleObjectsReturned)
  end.
Proof.
  unfold update, Model_get, save_loaded, related_delete, bulk_create.
  destruct (truthy (oauth_accounts u) && oauth_account_model self); run;
    destruct (filter (has_id (id (user_dict u))) (users db)) as [|u0 [|u1 l]];
    try reflexivity; cbn [row];
    destruct (valid_user (setattrs u0 (user_dict u))); try reflexivity;
    destruct (existsb (clashes (setattrs u0 (user_dict u))) (users db));
    try reflexivity.
  db_simpl. now destruct (refusal _ _).
Qed.

(** [delete] never raises. *)
Lemma delete_eq (u : UD) (db : DB) :
  delete u db =
  let i := id (user_dict u) in
  (if existsb (has_id i) (users db)
   then Build_DB (filter (fun v => negb (has_id i v)) (users db))
                 (option_map (filter (not_owned_by i)) (oauth_table db))
   else db, Returns tt).
Proof. reflexivity. Qed.

Lemma rows_after_delete (i : UUID4) (db : DB) :
  oauth_rows (Build_DB (filter (fun v => negb (has_id i v)) (users db))
                (option_map (filter (not_owned_by i)) (oauth_table db)))
  = filter (not_owned_by i) (oauth_rows db).
Proof. unfold oauth_rows. cbn [oauth_table]. now destruct (oauth_table db). Qed.

End Writes.

(** ** Rows and identity sets after a write *)

Lemma setattrs_same (m d : TortoiseBaseUserModel) :
  id m = id d -> setattrs m d = d.
Proof. destruct d. unfold setattrs. simpl. now intros ->. Qed.

Lemma filter_has_id (i : UUID4) (us l : list TortoiseBaseUserModel)
  (u0 : TortoiseBaseUserModel) :
  filter (has_id i) us = u0 :: l -> id u0 = i.
Proof.
  intros H. assert (Hin : In u0 (filter (has_id i) us)) by (rewrite H; now left).
  apply filter_In in Hin as [_ Hid]. now apply N.eqb_eq.
Qed.

Lemma filter_replace_row (m : TortoiseBaseUserModel)
  (us : list TortoiseBaseUserModel) :
  filter (has_id (id m)) (map (replace_row m) us)
  = map (fun _ => m) (filter (has_id (id m)) us).
Proof.
  induction us as [|v us IH]; simpl; [reflexivity|].
  assert (Hm : has_id (id m) m = true) by apply N.eqb_refl.
  assert (Hr : replace_row m v = if has_id (id m) v then m else v)
    by reflexivity.
  rewrite Hr. destruct (has_id (id m) v) eqn:E.
  - rewrite Hm. simpl. now rewrite IH.
  - now rewrite E.
Qed.

Lemma related_after_replace (i : UUID4) (rs : list OAuthRow)
  (l : list OAuth.t) :
  map account (filter (owned_by i)
                 (filter (not_owned_by i) rs ++ map (mkRow i) l)) = l.
Proof.
  rewrite filter_app, map_app.
  replace (filter (owned_by i) (filter (not_owned_by i) rs)) with (@nil OAuthRow).
  - simpl. induction l as [|a l IH]; simpl; [reflexivity|].
    unfold owned_by at 1. simpl. rewrite N.eqb_refl. simpl. now rewrite IH.
  - symmetry. apply filter_none. apply existsb_filter_negb.
Qed.

Lemma related_of_new (i : UUID4) (l : list OAuth.t) :
  map account (filter (owned_by i) (map (mkRow i) l)) = l.
Proof.
  induction l as [|a l IH]; simpl; [reflexivity|].
  unfold owned_by at 1. simpl. rewrite N.eqb_refl. simpl. now rewrite IH.
Qed.

Lemma fresh_key_fresh_id (d : TortoiseBaseUserModel)
  (us : list TortoiseBaseUserModel) :
  existsb (same_key d) us = false -> existsb (has_id (id d)) us = false.
Proof.
  induction us as [|v us IH]; simpl; [reflexivity|].
  intros H. apply orb_false_iff in H as [Hv Hus].
  rewrite (IH Hus), orb_false_r. unfold same_key in Hv.
  apply orb_false_iff in Hv as [Hv _]. apply orb_false_iff in Hv as [Hv _].
  unfold has_id. now rewrite N.eqb_sym.
Qed.

Lemma no_rows_of_absent_user (i : UUID4) (db : DB) :
  fk_ok db = true -> existsb (has_id i) (users db) = false ->
  filter (owned_by i) (oauth_rows db) = [].
Proof.
  unfold fk_ok. intros Hfk Hi. apply filter_none.
  induction (oauth_rows db) as [|r rs IH]; simpl in *; [reflexivity|].
  apply andb_true_iff in Hfk as [Hr Hrs]. rewrite (IH Hrs), orb_false_r.
  unfold owned_by. destruct (user r =? i) eqn:E; [|reflexivity].
  apply N.eqb_eq in E. rewrite E in Hr. congruence.
Qed.

Lemma truthy_cons (a : OAuth.t) (l : list OAuth.t) : truthy (Some (a :: l)) = true.
Proof. reflexivity. Qed.

(** ** The checks of a bulk INSERT *)

Lemma existsb_eqb_in (x : UUID4) (l : list UUID4) :
  existsb (N.eqb x) l = true <-> In x l.
Proof.
  rewrite existsb_exists. split.
  - intros (y & Hy & Hxy). apply N.eqb_eq in Hxy. now subst.
  - intros H. exists x. split; [exact H | apply N.eqb_refl].
Qed.

Lemma distinct_spec (l : list UUID4) : distinct l = true <-> NoDup l.
Proof.
  induction l as [|x l IH]; simpl.
  - split; [constructor | reflexivity].
  - rewrite andb_true_iff, negb_true_iff, IH, NoDup_cons_iff.
    assert (Hx : existsb (N.eqb x) l = false <-> ~ In x l); [|tauto].
    rewrite <- existsb_eqb_in. now destruct (existsb (N.eqb x) l).
Qed.

Lemma insertable_spec (rs objs : list OAuthRow) :
  insertable rs objs = true <->
  NoDup (map pk objs)
  /\ forall x, In x (map pk objs) -> ~ In x (map pk rs).
Proof.
  unfold insertable. rewrite andb_true_iff, distinct_spec, forallb_forall.
  split; intros [Hd Hnew]; (split; [exact Hd|]); intros x Hx.
  - intros Hin. apply existsb_eqb_in in Hin.
    specialize (Hnew x Hx). rewrite Hin in Hnew. discriminate Hnew.
  - apply negb_true_iff. destruct (existsb (N.eqb x) (map pk rs)) eqn:E;
      [|reflexivity].
    apply existsb_eqb_in in E. now destruct (Hnew x Hx).
Qed.

Lemma first_refusal_none (taken : list UUID4) (objs : list OAuthRow) :
  first_refusal taken objs = None <->
  forallb (fun r => in_range (account r)) objs = true
  /\ NoDup (map pk objs)
  /\ forall x, In x (map pk objs) -> ~ In x taken.
Proof.
  revert taken. induction objs as [|r objs IH]; intros taken; simpl.
  - split; [|reflexivity]. intros _. repeat split; [constructor | intros x []].
  - destruct (in_range (account r)); simpl;
      [|split; [discriminate | intros [H _]; discriminate H]].
    destruct (existsb (N.eqb (pk r)) taken) eqn:E.
    + split; [discriminate|]. intros (_ & _ & H).
      apply existsb_eqb_in in E. destruct (H (pk r)); auto.
    + rewrite IH, NoDup_cons_iff.
      assert (Hr : ~ In (pk r) taken).
      { intros Hin. apply existsb_eqb_in in Hin. congruence. }
      split.
      * intros (Hrange & Hd & Hnew). split; [exact Hrange|]. split.
        -- split; [|exact Hd]. intros Hin. apply (Hnew _ Hin). now left.
        -- intros x [<-|Hx]; [exact Hr|].
           intros Hin. apply (Hnew _ Hx). now right.
      * intros (Hrange & [Hnotin Hd] & Hnew). split; [exact Hrange|].
        split; [exact Hd|]. intros x Hx [<-|Hin]; [contradiction|].
        apply (Hnew x); [now right | exact Hin].
Qed.

(** A bulk INSERT is accepted when every row passes the checks of its
    columns and the primary keys are new and distinct. *)
Lemma refusal_none (rs objs : list OAuthRow) :
  refusal rs objs = None <->
  forallb (fun r => valid_account (account r) && in_range (account r)) objs = true
  /\ insertable rs objs = true.
Proof.
  unfold refusal. rewrite insertable_spec.
  assert (Hall : forallb (fun r => valid_account (account r) && in_range (account r))
                   objs
                 = forallb (fun r => valid_account (account r)) objs
                   && forallb (fun r => in_range (account r)) objs).
  { induction objs as [|r objs IH]; simpl; [reflexivity|]. rewrite IH.
    destruct (valid_account (account r)), (in_range (account r)); simpl;
      try reflexivity; now rewrite ?andb_false_r. }
  rewrite Hall. destruct (forallb (fun r => valid_account (account r)) objs).
  - rewrite first_refusal_none. simpl. tauto.
  - simpl. split; [discriminate | intros [H _]; discriminate H].
Qed.

(** ** The store a write leaves *)

Section Shapes.

Variable self : TortoiseUserDatabase.

(** The store after [create], whether it returns or raises: the store
    before, or the store with the new user row, or the store with the new
    user row and the identity rows of the input. *)
Lemma create_shape (u : UD) (db : DB) :
  let db' := fst (create self u db) in
  let objs := map (mkRow (id (user_dict u))) (accounts_of (oauth_accounts u)) in
  db' = db
  \/ (valid_user (user_dict u) = true
      /\ existsb (same_key (user_dict u)) (users db) = false
      /\ users db' = users db ++ [user_dict u]
      /\ (oauth_rows db' = oauth_rows db
          \/ (refusal (oauth_rows db) objs = None
              /\ oauth_rows db' = oauth_rows db ++ objs))).
Proof.
  intros db' objs. subst db' objs. rewrite create_eq. cbv zeta.
  destruct (valid_user (user_dict u)); [|now left].
  destruct (existsb _ (users db)); [now left|]. right.
  do 2 (split; [reflexivity|]).
  destruct (truthy _ && _); [destruct (refusal _ _) eqn:R|]; db_simpl; auto.
Qed.

(** The same for [update]: the store before, or the store with the row
    overwritten and the identity rows as they were, or without the rows of
    the user, or with the rows of the user replaced. *)
Lemma update_shape (u : UD) (db : DB) :
  let db' := fst (update self u db) in
  let i := id (user_dict u) in
  let kept := filter (not_owned_by i) (oauth_rows db) in
  let objs := map (mkRow i) (accounts_of (oauth_accounts u)) in
  db' = db
  \/ (valid_user (user_dict u) = true
      /\ existsb (has_id i) (users db) = true
      /\ users db' = map (replace_row (user_dict u)) (users db)
      /\ (oauth_rows db' = oauth_rows db
          \/ oauth_rows db' = kept
          \/ (refusal kept objs = None /\ oauth_rows db' = kept ++ objs))).
Proof.
  intros db' i kept objs. subst db' i kept objs. rewrite update_eq.
  destruct (filter _ (users db)) as [|u0 [|u1 us]] eqn:F; try now left.
  cbv zeta. rewrite (setattrs_same u0 (user_dict u) (filter_has_id _ _ F)).
  destruct (valid_user (user_dict u)); [|now left].
  destruct (existsb (clashes _) (users db)); [now left|]. right.
  split; [reflexivity|]. split.
  { destruct (existsb (has_id (id (user_dict u))) (users db)) eqn:E;
      [reflexivity|]. rewrite (filter_none _ _ E) in F. discriminate F. }
  destruct (truthy _ && _); [destruct (refusal _ _) eqn:R|]; db_simpl; auto.
Qed.

(** The same for [delete]: the store before, or the store without the rows
    with the identifier and the identity rows they own. *)
Lemma delete_shape (u : UD) (db : DB) :
  let db' := fst (delete u db) in
  let i := id (user_dict u) in
  db' = db
  \/ (users db' = filter (fun v => negb (has_id i v)) (users db)
      /\ oauth_rows db' = filter (not_owned_by i) (oauth_rows db)).
Proof.
  intros db' i. subst db' i. rewrite delete_eq. cbv zeta. cbn [fst].
  destruct (existsb _ (users db)); [right|now left].
  split; [reflexivity | apply rows_after_delete].
Qed.

End Shapes.

(** ** Invariants of the adapter *)

Lemma fk_ok_spec (db : DB) :
  fk_ok db = true <->
  forall r, In r (oauth_rows db) -> exists v, In v (users db) /\ id v = user r.
Proof.
  unfold fk_ok. rewrite forallb_forall. split; intros H r Hr.
  - apply H, existsb_exists in Hr as (v & Hv & Hid).
    exists v. split; [exact Hv|]. now apply N.eqb_eq.
  - apply existsb_exists. destruct (H r Hr) as (v & Hv & Hid).
    exists v. split; [exact Hv|]. now apply N.eqb_eq.
Qed.

Lemma replace_row_id (m v : TortoiseBaseUserModel) : id (replace_row m v) = id v.
Proof.
  unfold replace_row, has_id. destruct (id v =? id m) eqn:E; [|reflexivity].
  symmetry. now apply N.eqb_eq.
Qed.

Lemma empty_db_ok :
  fk_ok empty_db = true /\ ids_ok empty_db = true /\ columns_ok empty_db = true.
Proof. repeat split. Qed.

Lemma ids_of_kept (q : TortoiseBaseUserModel -> bool)
  (us : list TortoiseBaseUserModel) :
  NoDup (map id us) -> NoDup (map id (filter q us)).
Proof.
  induction us as [|v us IH]; simpl; [trivial|].
  rewrite NoDup_cons_iff. intros [Hv Hus]. destruct (q v); [|auto].
  simpl. apply NoDup_cons; [|auto].
  intros Hin. apply Hv. apply in_map_iff in Hin as (w & Hw & Hin).
  apply filter_In in Hin as [Hin _]. apply in_map_iff. now exists w.
Qed.

Lemma absent_id_not_in (i : UUID4) (us : list TortoiseBaseUserModel) :
  existsb (has_id i) us = false <-> ~ In i (map id us).
Proof.
  split.
  - intros H Hin. apply in_map_iff in Hin as (v & Hv & Hin).
    assert (existsb (has_id i) us = true); [|congruence].
    apply existsb_exists. exists v. split; [exact Hin | now apply N.eqb_eq].
  - intros H. destruct (existsb (has_id i) us) eqn:E; [|reflexivity].
    apply existsb_exists in E as (v & Hv & Hid). apply N.eqb_eq in Hid.
    exfalso. apply H. apply in_map_iff. now exists v.
Qed.

(** With distinct identifiers, at most one row has a given identifier. *)
Lemma at_most_one_row (i : UUID4) (us : list TortoiseBaseUserModel) :
  NoDup (map id us) ->
  filter (has_id i) us = [] \/ exists v, filter (has_id i) us = [v].
Proof.
  induction us as [|v us IH]; simpl; [now left|].
  rewrite NoDup_cons_iff. intros [Hv Hus].
  destruct (has_id i v) eqn:E; [|auto].
  right. exists v. f_equal. apply filter_none. apply absent_id_not_in.
  apply N.eqb_eq in E. now rewrite <- E.
Qed.

Section Invariant.

Variable self : TortoiseUserDatabase.

Lemma create_keeps_fk (u : UD) (db : DB) :
  fk_ok db = true -> fk_ok (fst (create self u db)) = true.
Proof.
  intros Hfk.
  destruct (create_shape self u db) as [-> | (_ & _ & Hus & Hrs)]; [exact Hfk|].
  rewrite fk_ok_spec in Hfk. apply fk_ok_spec. rewrite Hus.
  assert (Hold : forall r, In r (oauth_rows db) ->
            exists v, In v (users db ++ [user_dict u]) /\ id v = user r).
  { intros r Hr. destruct (Hfk r Hr) as (v & Hv & Hid).
    exists v. split; [apply in_or_app; now left | exact Hid]. }
  destruct Hrs as [-> | [_ ->]]; [exact Hold|].
  intros r Hr. apply in_app_or in Hr as [Hr|Hr]; [now apply Hold|].
  apply in_map_iff in Hr as (a & <- & _).
  exists (user_dict u). split; [apply in_or_app; right; now left | reflexivity].
Qed.

Lemma update_keeps_fk (u : UD) (db : DB) :
  fk_ok db = true -> fk_ok (fst (update self u db)) = true.
Proof.
  intros Hfk.
  destruct (update_shape self u db) as [-> | (_ & Hex & Hus & Hrs)];
    [exact Hfk|].
  rewrite fk_ok_spec in Hfk. apply fk_ok_spec. rewrite Hus.
  assert (Hold : forall r, In r (oauth_rows db) ->
            exists v, In v (map (replace_row (user_dict u)) (users db))
                      /\ id v = user r).
  { intros r Hr. destruct (Hfk r Hr) as (v & Hv & Hid).
    exists (replace_row (user_dict u) v).
    split; [now apply in_map | now rewrite replace_row_id]. }
  assert (Hkept : forall r,
            In r (filter (not_owned_by (id (user_dict u))) (oauth_rows db)) ->
            exists v, In v (map (replace_row (user_dict u)) (users db))
                      /\ id v = user r).
  { intros r Hr. apply filter_In in Hr as [Hr _]. now apply Hold. }
  destruct Hrs as [-> | [-> | [_ ->]]]; try assumption.
  intros r Hr. apply in_app_or in Hr as [Hr|Hr]; [now apply Hkept|].
  apply in_map_iff in Hr as (a & <- & _). cbn [user].
  apply existsb_exists in Hex as (u0 & Hin & Hid). apply N.eqb_eq in Hid.
  exists (replace_row (user_dict u) u0).
  split; [now apply in_map | now rewrite replace_row_id].
Qed.

Lemma delete_keeps_fk (u : UD) (db : DB) :
  fk_ok db = true -> fk_ok (fst (delete u db)) = true.
Proof.
  intros Hfk. destruct (delete_shape u db) as [-> | [Hus Hrs]]; [exact Hfk|].
  rewrite fk_ok_spec in Hfk. apply fk_ok_spec. rewrite Hus, Hrs.
  intros r Hr. apply filter_In in Hr as [Hr Hnot].
  destruct (Hfk r Hr) as (v & Hv & Hid). exists v. split; [|exact Hid].
  apply filter_In. split; [exact Hv|].
  unfold not_owned_by, owned_by in Hnot. unfold has_id. now rewrite Hid.
Qed.

Lemma create_keeps_ids (u : UD) (db : DB) :
  ids_ok db = true -> ids_ok (fst (create self u db)) = true.
Proof.
  unfold ids_ok. intros Hids.
  destruct (create_shape self u db) as [-> | (_ & Hkey & -> & _)];
    [exact Hids|].
  apply distinct_spec. rewrite map_app. apply distinct_spec in Hids.
  apply NoDup_app; [exact Hids | repeat constructor; intros [] |].
  intros j Hj [<-|[]]. revert Hj. apply absent_id_not_in.
  now apply fresh_key_fresh_id.
Qed.

Lemma update_keeps_ids (u : UD) (db : DB) :
  ids_ok db = true -> ids_ok (fst (update self u db)) = true.
Proof.
  unfold ids_ok. intros Hids.
  destruct (update_shape self u db) as [-> | (_ & _ & -> & _)]; [exact Hids|].
  rewrite map_map. erewrite map_ext; [exact Hids|].
  intros v. apply replace_row_id.
Qed.

Lemma delete_keeps_ids (u : UD) (db : DB) :
  ids_ok db = true -> ids_ok (fst (delete u db)) = true.
Proof.
  unfold ids_ok. intros Hids.
  destruct (delete_shape u db) as [-> | [-> _]]; [exact Hids|].
  apply distinct_spec. apply ids_of_kept. now apply distinct_spec.
Qed.

Lemma create_keeps_columns (u : UD) (db : DB) :
  columns_ok db = true -> columns_ok (fst (create self u db)) = true.
Proof.
  unfold columns_ok. intros Hok.
  destruct (create_shape self u db) as [-> | (Hv & _ & -> & Hrs)];
    [exact Hok|].
  apply andb_true_iff in Hok as [Hus Hrows]. apply andb_true_iff.
  split; [rewrite forallb_app, Hus; simpl; now rewrite Hv|].
  destruct Hrs as [-> | [R ->]]; [exact Hrows|].
  apply refusal_none in R as [R _]. now rewrite forallb_app, Hrows, R.
Qed.

Lemma update_keeps_columns (u : UD) (db : DB) :
  columns_ok db = true -> columns_ok (fst (update self u db)) = true.
Proof.
  unfold columns_ok. intros Hok.
  destruct (update_shape self u db) as [-> | (Hv & _ & -> & Hrs)];
    [exact Hok|].
  apply andb_true_iff in Hok as [Hus Hrows]. apply andb_true_iff.
  assert (Hkept : forallb
            (fun r => valid_account (account r) && in_range (account r))
            (filter (not_owned_by (id (user_dict u))) (oauth_rows db)) = true).
  { apply forallb_forall. intros r Hr. apply filter_In in Hr as [Hr _].
    revert r Hr. now apply forallb_forall. }
  split.
  - apply forallb_forall. intros w Hw. apply in_map_iff in Hw as (v & <- & Hin).
    unfold replace_row. destruct (has_id _ v); [exact Hv|].
    revert v Hin. now apply forallb_forall.
  - destruct Hrs as [-> | [-> | [R ->]]]; try assumption.
    apply refusal_none in R as [R _]. now rewrite forallb_app, Hkept, R.
Qed.

Lemma delete_keeps_columns (u : UD) (db : DB) :
  columns_ok db = true -> columns_ok (fst (delete u db)) = true.
Proof.
  unfold columns_ok. intros Hok.
  destruct (delete_shape u db) as [-> | [-> ->]]; [exact Hok|].
  apply andb_true_iff in Hok as [Hus Hrows]. apply andb_true_iff.
  split; apply forallb_forall; intros x Hx; apply filter_In in Hx as [Hx _];
    revert x Hx; now apply forallb_forall.
Qed.

(** With distinct identifiers [get] raises on no account of the number of
    rows. *)
Lemma get_total (i : UUID4) (db : DB) :
  ids_ok db = true ->
  get self i db
  = match hd_error (filter (has_id i) (users db)) with
    | None => (db, Returns None)
    | Some u => found self db u
    end.
Proof.
  unfold ids_ok. intros Hids. rewrite get_eq.
  apply distinct_spec in Hids.
  now destruct (at_most_one_row i _ Hids) as [-> | [v ->]].
Qed.

End Invariant.

(** ** Lookups that find nothing *)

(** Counterexample to C2 as stated.  In an application that declares no
    identity model the key matches no stored record, and
    [get_by_oauth_account] raises [FieldError]: its filter names a relation
    the user model does not have, and only [DoesNotExist] is caught. *)
Lemma lookup_by_identity_without_relation_raises :
  existsb (oauth_key "google" "g1") (oauth_rows Sample.plain_db) = false
  /\ get_by_oauth_account Sample.plain_store "google" "g1" Sample.plain_db
     = (Sample.plain_db, Raises FieldError).
Proof. split; reflexivity. Qed.

(** C2 (amended). A key that matches no stored record makes every lookup
    return the empty result, without an exception and without touching the
    store: [get] for an identifier no row has, [get_by_email] and
    [get_by_username] for a key no row matches up to letter case, and, where
    the application declares an identity model, [get_by_oauth_account] for a
    (provider, account id) pair no identity row carries. *)
Theorem lookup_of_absent_key_returns_none
  (self : TortoiseUserDatabase) (db : DB)
  (i : UUID4) (e n oauth acct : string) :
  (existsb (has_id i) (users db) = false ->
   get self i db = (db, Returns None))
  /\ (existsb (by_email e) (users db) = false ->
      get_by_email self e db = (db, Returns None))
  /\ (existsb (by_username n) (users db) = false ->
      get_by_username self n db = (db, Returns None))
  /\ (declared db = true ->
      existsb (oauth_key oauth acct) (oauth_rows db) = false ->
      get_by_oauth_account self oauth acct db = (db, Returns None)).
Proof.
  split; [|split; [|split]].
  - intros H. rewrite get_eq. now rewrite (filter_none _ _ H).
  - intros H. rewrite get_by_email_eq. now rewrite (filter_none _ _ H).
  - intros H. rewrite get_by_username_eq. now rewrite (filter_none _ _ H).
  - intros Hd H. rewrite get_by_oauth_account_eq, Hd.
    now rewrite (join_none _ _ _ H).
Qed.

Lemma lookup_of_absent_key_returns_none_witness :
  let db := Sample.db_alice in
  get Sample.store 7 db = (db, Returns None)
  /\ get_by_email Sample.store "b@x.com" db = (db, Returns None)
  /\ get_by_username Sample.store "bob" db = (db, Returns None)
  /\ get_by_oauth_account Sample.store "google" "g2" db = (db, Returns None).
Proof.
  destruct (lookup_of_absent_key_returns_none Sample.store Sample.db_alice
              7 "b@x.com" "bob" "google" "g2") as (Hi & He & Hn & Ho).
  intros db. split; [|split; [|split]];
    [apply Hi | apply He | apply Hn | apply Ho]; reflexivity.
Defined.

(** ** Update of a record that is not stored *)

(** C3. [update] with a record whose identifier no stored row has raises the
    storage layer's [DoesNotExist]; nothing catches it, and the store is
    left as it was. *)
Theorem update_of_absent_identifier_raises
  (self : TortoiseUserDatabase) (db : DB) (u : UD) :
  existsb (has_id (id (user_dict u))) (users db) = false ->
  update self u db = (db, Raises DoesNotExist).
Proof.
  intros H. rewrite update_eq. now rewrite (filter_none _ _ H).
Qed.

Lemma update_of_absent_identifier_raises_witness :
  update Sample.store (mkUD Sample.carol (Some [Sample.github])) Sample.db_alice
  = (Sample.db_alice, Raises DoesNotExist).
Proof.
  apply update_of_absent_identifier_raises. reflexivity.
Defined.

(** ** Deletion *)

Lemma delete_removes (db : DB) (u : UD) :
  existsb (has_id (id (user_dict u))) (users (fst (delete u db))) = false.
Proof.
  rewrite delete_eq. cbn [fst].
  destruct (existsb _ (users db)) eqn:E; [|exact E].
  cbn [users]. apply existsb_filter_negb.
Qed.

(** C6. After [delete] with a record bearing the identifier of a stored
    record, no row has that identifier and [get] of it returns the empty
    result. *)
Theorem get_after_delete_returns_none
  (self : TortoiseUserDatabase) (db : DB) (s : TortoiseBaseUserModel) (u : UD) :
  In s (users db) ->
  id (user_dict u) = id s ->
  exists db',
    delete u db = (db', Returns tt)
    /\ existsb (has_id (id s)) (users db') = false
    /\ get self (id s) db' = (db', Returns None).
Proof.
  intros _ Hid. exists (fst (delete u db)).
  pose proof (delete_removes db u) as H. rewrite Hid in H.
  split; [reflexivity|]. split; [exact H|].
  rewrite get_eq. now rewrite (filter_none _ _ H).
Qed.

Lemma get_after_delete_returns_none_witness :
  exists db',
    delete (mkUD Sample.alice None) Sample.db_alice_bob = (db', Returns tt)
    /\ existsb (has_id 1) (users db') = false
    /\ get Sample.store 1 db' = (db', Returns None).
Proof.
  apply (get_after_delete_returns_none Sample.store Sample.db_alice_bob
           Sample.alice (mkUD Sample.alice None)).
  - simpl. left. reflexivity.
  - reflexivity.
Defined.

(** C7. [delete] never raises.  When no stored row has the identifier of the
    input it leaves the store as it is, and deleting twice is deleting
    once. *)
Theorem delete_of_absent_identifier_is_noop (db : DB) (u : UD) :
  snd (delete u db) = Returns tt
  /\ (existsb (has_id (id (user_dict u))) (users db) = false ->
      delete u db = (db, Returns tt))
  /\ (delete u ;; delete u) db = delete u db.
Proof.
  split; [reflexivity|]. split.
  - intros H. rewrite delete_eq. cbv zeta. now rewrite H.
  - unfold bind. destruct (delete u db) as [db' o] eqn:E.
    assert (Ho : o = Returns tt) by (now rewrite delete_eq in E; inversion E).
    subst o. pose proof (delete_removes db u) as H. rewrite E in H.
    cbn [fst] in H. rewrite delete_eq. cbv zeta. now rewrite H.
Qed.

Lemma delete_of_absent_identifier_is_noop_witness :
  delete (mkUD Sample.carol None) Sample.db_alice_bob
  = (Sample.db_alice_bob, Returns tt).
Proof.
  destruct (delete_of_absent_identifier_is_noop Sample.db_alice_bob
              (mkUD Sample.carol None)) as (_ & H & _).
  apply H. reflexivity.
Defined.

(** ** Lookups by email and by username *)

(** Counterexample to C10 as stated.  On a store built without an identity
    model whose representation declares the identity set, two stored
    records match the key and [get_by_email] raises [NoValuesFetched] once
    the first one is found: the relation it translates was not loaded. *)
Lemma lookup_with_relation_not_loaded_raises :
  let db := Sample.db_alice_bob in
  filter (by_email "a@x.com") (users db) = [Sample.alice; Sample.bob]
  /\ get_by_email Sample.store_without_identities "a@x.com" db
     = (db, Raises NoValuesFetched)
  /\ get_by_username Sample.store_without_identities "ALICE" db
     = (db, Raises NoValuesFetched).
Proof. intros db. repeat split. Qed.

(** C10 (amended). On a store that loads the identities its representation
    declares (it was built with an identity model, or its representation
    declares no identity set): when several stored records match the key up
    to letter case, [get_by_email] and [get_by_username] return the first of
    them in query order, whatever follows it; they neither raise nor return
    the empty result. *)
Theorem lookup_by_key_takes_first_match
  (self : TortoiseUserDatabase) (db : DB)
  (l1 l2 : list TortoiseBaseUserModel) (u : TortoiseBaseUserModel)
  (k : string) :
  oauth_account_model self = true \/ user_db_model self = false ->
  users db = l1 ++ u :: l2 ->
  (existsb (by_email k) l1 = false -> by_email k u = true ->
   get_by_email self k db = (db, Returns (Some (translate self db u))))
  /\ (existsb (by_username k) l1 = false -> by_username k u = true ->
      get_by_username self k db = (db, Returns (Some (translate self db u)))).
Proof.
  intros Hload Hus. split; intros H1 Hu.
  - rewrite get_by_email_eq, Hus, (filter_first _ _ _ _ H1 Hu).
    now apply found_loaded.
  - rewrite get_by_username_eq, Hus, (filter_first _ _ _ _ H1 Hu).
    now apply found_loaded.
Qed.

Lemma lookup_by_key_takes_first_match_witness :
  let db := Sample.db_alice_bob in
  (by_email "a@X.com" Sample.bob = true
   /\ get_by_email Sample.store "a@X.com" db
      = (db, Returns (Some (mkUD Sample.alice (Some [Sample.google])))))
  /\ (by_username "ALICE" Sample.bob = true
      /\ get_by_username Sample.store "ALICE" db
         = (db, Returns (Some (mkUD Sample.alice (Some [Sample.google]))))).
Proof.
  intros db.
  split; (split; [reflexivity|]).
  - destruct (lookup_by_key_takes_first_match Sample.store db
                [] [Sample.bob] Sample.alice "a@X.com"
                (or_introl eq_refl) eq_refl) as [H _].
    apply H; reflexivity.
  - destruct (lookup_by_key_takes_first_match Sample.store db
                [] [Sample.bob] Sample.alice "ALICE"
                (or_introl eq_refl) eq_refl) as [_ H].
    apply H; reflexivity.
Defined.

Lemma iexact_upper (a b : string) : iexact a b = true <-> upper a = upper b.
Proof. apply String.eqb_eq. Qed.

(** Counterexample to C5 as stated.  Two stored records whose emails differ
    by letter case only: the second one is stored under exactly the key
    looked up, and the lookup returns the first one; the state is the one
    two calls of [create] build.  And on a store built without an identity
    model whose representation declares the identity set, the lookup of the
    only stored record raises [NoValuesFetched] instead of returning it. *)
Lemma lookup_by_email_misses_second_match :
  let db := Sample.db_alice_bob in
  (fst (create Sample.store (mkUD Sample.bob None)
          (fst (create Sample.store (mkUD Sample.alice (Some [Sample.google]))
                  empty_db))) = db
   /\ In Sample.bob (users db)
   /\ email Sample.bob = "a@x.com"
   /\ get_by_email Sample.store "a@x.com" db
      = (db, Returns (Some (translate Sample.store db Sample.alice)))
   /\ get_by_email Sample.store "a@x.com" db
      <> (db, Returns (Some (translate Sample.store db Sample.bob))))
  /\ (users Sample.db_alice = [Sample.alice]
      /\ upper (email Sample.alice) = upper "a@x.com"
      /\ get_by_email Sample.store_without_identities "a@x.com" Sample.db_alice
         = (Sample.db_alice, Raises NoValuesFetched)).
Proof.
  intros db. split.
  - split; [reflexivity|]. split; [simpl; auto|].
    split; [reflexivity|]. split; [reflexivity|].
    intros H. discriminate H.
  - repeat split.
Qed.

(** C5 (amended). On a store that loads the identities its representation
    declares, [get_by_email] matches the stored email up to letter case and
    exactly otherwise: it returns a stored record whenever the key equals
    that record's email up to letter case and no other stored record matches
    the key in this way.  On every store a record it returns matches the
    key up to letter case.  [get_by_username] does the same on the
    username. *)
Theorem lookup_by_key_is_case_insensitive
  (self : TortoiseUserDatabase) (db : DB) (u : TortoiseBaseUserModel)
  (k : string) :
  In u (users db) ->
  (oauth_account_model self = true \/ user_db_model self = false ->
   upper (email u) = upper k ->
   (forall v, In v (users db) -> upper (email v) = upper k -> v = u) ->
   get_by_email self k db = (db, Returns (Some (translate self db u))))
  /\ (oauth_account_model self = true \/ user_db_model self = false ->
      upper (username u) = upper k ->
      (forall v, In v (users db) -> upper (username v) = upper k -> v = u) ->
      get_by_username self k db = (db, Returns (Some (translate self db u))))
  /\ (forall db' v, get_by_email self k db = (db', Returns (Some v)) ->
      In (user_dict v) (users db) /\ upper (email (user_dict v)) = upper k)
  /\ (forall db' v, get_by_username self k db = (db', Returns (Some v)) ->
      In (user_dict v) (users db) /\ upper (username (user_dict v)) = upper k).
Proof.
  intros Hin. split; [|split; [|split]].
  - intros Hload Hk Huniq. rewrite get_by_email_eq.
    rewrite (@hd_filter_unique _ (by_email k) (users db) u); auto.
    + now apply found_loaded.
    + now apply iexact_upper.
    + intros v Hv Hm. apply Huniq; auto. now apply iexact_upper.
  - intros Hload Hk Huniq. rewrite get_by_username_eq.
    rewrite (@hd_filter_unique _ (by_username k) (users db) u); auto.
    + now apply found_loaded.
    + now apply iexact_upper.
    + intros v Hv Hm. apply Huniq; auto. now apply iexact_upper.
  - intros db' v H. rewrite get_by_email_eq in H.
    destruct (hd_error (filter (by_email k) (users db))) as [w|] eqn:E;
      [|discriminate H].
    apply hd_filter_sound in E as [Hw Hm]. unfold found in H.
    destruct (_ || _); [|discriminate H]. inversion H; subst. simpl.
    split; [exact Hw|]. now apply iexact_upper.
  - intros db' v H. rewrite get_by_username_eq in H.
    destruct (hd_error (filter (by_username k) (users db))) as [w|] eqn:E;
      [|discriminate H].
    apply hd_filter_sound in E as [Hw Hm]. unfold found in H.
    destruct (_ || _); [|discriminate H]. inversion H; subst. simpl.
    split; [exact Hw|]. now apply iexact_upper.
Qed.

Lemma lookup_by_key_is_case_insensitive_witness :
  let db := Sample.db_alice in
  get_by_email Sample.store "a@x.com" db
  = (db, Returns (Some (mkUD Sample.alice (Some [Sample.google]))))
  /\ get_by_username Sample.store "ALICE" (mkDB [Sample.alice; Sample.carol] [])
     = (mkDB [Sample.alice; Sample.carol] [],
        Returns (Some (mkUD Sample.alice (Some [])))).
Proof.
  intros db. split.
  - destruct (lookup_by_key_is_case_insensitive Sample.store db
                Sample.alice "a@x.com") as (H & _).
    + simpl. left. reflexivity.
    + apply H; [left; reflexivity | reflexivity |].
      intros v [<-|[]] _. reflexivity.
  - destruct (lookup_by_key_is_case_insensitive Sample.store
                (mkDB [Sample.alice; Sample.carol] [])
                Sample.alice "ALICE") as (_ & H & _).
    + simpl. left. reflexivity.
    + apply H; [left; reflexivity | reflexivity |].
      intros v [<-|[<-|[]]] Hv; [reflexivity|discriminate Hv].
Defined.

Section IdentityHandling.

Variable self : TortoiseUserDatabase.

(** What [update] does when the test [oauth_accounts and
    self.oauth_account_model] fails: the user row only. *)
Lemma update_user_row_only (u : UD) (db : DB) :
  truthy (oauth_accounts u) && oauth_account_model self = false ->
  update self u db =
  match filter (has_id (id (user_dict u))) (users db) with
  | [] => (db, Raises DoesNotExist)
  | [u0] =>
      if valid_user (user_dict u) then
        if existsb (clashes (user_dict u)) (users db)
        then (db, Raises IntegrityError)
        else (with_users db (map (replace_row (user_dict u)) (users db)),
              Returns u)
      else (db, Raises ValidationError)
  | _ :: _ :: _ => (db, Raises MultipleObjectsReturned)
  end.
Proof.
  intros Hskip. rewrite update_eq, Hskip.
  destruct (filter _ (users db)) as [|u0 [|u1 l]] eqn:F; try reflexivity.
  cbv zeta. now rewrite (setattrs_same u0 (user_dict u) (filter_has_id _ _ F)).
Qed.

Lemma update_user_row_only_rows (u : UD) (db : DB) :
  truthy (oauth_accounts u) && oauth_account_model self = false ->
  oauth_rows (fst (update self u db)) = oauth_rows db.
Proof.
  intros Hskip. rewrite (update_user_row_only _ _ Hskip).
  destruct (filter _ (users db)) as [|u0 [|u1 l]]; try reflexivity.
  destruct (valid_user _); [|reflexivity].
  now destruct (existsb _ (users db)).
Qed.

(** The same for [create]. *)
Lemma create_user_row_only (u : UD) (db : DB) :
  truthy (oauth_accounts u) && oauth_account_model self = false ->
  create self u db =
  if valid_user (user_dict u) then
    if existsb (same_key (user_dict u)) (users db)
    then (db, Raises IntegrityError)
    else (with_users db (users db ++ [user_dict u]), Returns u)
  else (db, Raises ValidationError).
Proof. intros Hskip. now rewrite create_eq, Hskip. Qed.

Lemma get_after_update_row (u : UD) (db db' : DB) (u0 : TortoiseBaseUserModel) :
  filter (has_id (id (user_dict u))) (users db) = [u0] ->
  users db' = map (replace_row (user_dict u)) (users db) ->
  get self (id (user_dict u)) db' = found self db' (user_dict u).
Proof.
  intros F Hus. rewrite get_eq, Hus. now rewrite filter_replace_row, F.
Qed.

Lemma get_after_insert (db db' : DB) (d : TortoiseBaseUserModel) :
  existsb (has_id (id d)) (users db) = false ->
  users db' = users db ++ [d] ->
  get self (id d) db' = found self db' d.
Proof.
  intros Hfresh Hus. rewrite get_eq, Hus.
  rewrite filter_app, (filter_none _ _ Hfresh). simpl.
  assert (Hd : has_id (id d) d = true) by apply N.eqb_eq, eq_refl.
  now rewrite Hd.
Qed.

End IdentityHandling.

(** ** Update and the identity set *)

(** Counterexample to C1 as stated.  An update whose input carries the empty
    identity set: the call returns, and [get] afterwards still returns the
    google identity stored before, not the empty set of the input. *)
Lemma update_with_empty_identity_set_keeps_old_set :
  let input := mkUD Sample.alice (Some []) in
  let db' := fst (update Sample.store input Sample.db_alice) in
  oauth_account_model Sample.store = true
  /\ oauth_accounts input = Some []
  /\ update Sample.store input Sample.db_alice = (db', Returns input)
  /\ get Sample.store 1 db'
     = (db', Returns (Some (mkUD Sample.alice (Some [Sample.google]))))
  /\ get Sample.store 1 db' <> (db', Returns (Some input)).
Proof.
  intros input db'. repeat (split; [reflexivity|]).
  intros H. discriminate H.
Qed.

(** C1 (amended). On a store with external-identity support, an [update]
    that returns and whose input carries a non-empty identity set deletes
    every identity row linked to the user and inserts the new set: the rows
    of other users are kept, and a subsequent [get] of the identifier
    returns the input record, with exactly the new set. *)
Theorem update_replaces_identity_set
  (self : TortoiseUserDatabase) (db db' : DB) (u r : UD)
  (a : OAuth.t) (l : list OAuth.t) :
  oauth_account_model self = true ->
  user_db_model self = true ->
  oauth_accounts u = Some (a :: l) ->
  update self u db = (db', Returns r) ->
  oauth_rows db'
  = filter (not_owned_by (id (user_dict u))) (oauth_rows db)
    ++ map (mkRow (id (user_dict u))) (a :: l)
  /\ related db' (id (user_dict u)) = a :: l
  /\ get self (id (user_dict u)) db' = (db', Returns (Some u)).
Proof.
  intros Hon Hud Hoa H. rewrite update_eq in H.
  destruct (filter _ (users db)) as [|u0 [|u1 us]] eqn:F; try discriminate H.
  cbv zeta in H.
  rewrite (setattrs_same u0 (user_dict u) (filter_has_id _ _ F)) in H.
  destruct (valid_user _); [|discriminate H].
  destruct (existsb _ (users db)); [discriminate H|].
  rewrite Hoa, truthy_cons, Hon in H. unfold andb, accounts_of in H.
  destruct (refusal _ _); [discriminate H|].
  injection H as <- <-.
  split; [reflexivity|].
  match goal with
  | |- related ?d _ = _ /\ _ =>
      assert (Hrel : related d (id (user_dict u)) = a :: l)
        by apply (related_after_replace _ _ (a :: l))
  end.
  split; [exact Hrel|].
  match goal with
  | |- get _ _ ?d = _ =>
      rewrite (@get_after_update_row self u db d u0 F eq_refl)
  end.
  rewrite found_loaded by now left.
  unfold translate. rewrite Hud, Hrel, <- Hoa. now destruct u.
Qed.

Lemma update_replaces_identity_set_witness :
  let input := mkUD Sample.alice (Some [Sample.github]) in
  let db' := mkDB [Sample.alice] [mkRow 1 Sample.github] in
  update Sample.store input Sample.db_alice = (db', Returns input)
  /\ oauth_rows db' = [mkRow 1 Sample.github]
  /\ related db' 1 = [Sample.github]
  /\ get Sample.store 1 db' = (db', Returns (Some input)).
Proof.
  intros input db'. split; [reflexivity|].
  apply (update_replaces_identity_set Sample.store Sample.db_alice input
           (r := input) (a := Sample.github) (l := []));
    reflexivity.
Defined.

(** C9. On a store with external-identity support, [update] with an input
    whose identity set is present but empty leaves every identity row as it
    was, whatever the outcome of the call; when the call returns, [get]
    still returns the identity set stored before, so the set cannot be
    cleared through [update]. *)
Theorem update_with_empty_identity_list_keeps_rows
  (self : TortoiseUserDatabase) (db : DB) (u : UD) :
  oauth_account_model self = true ->
  oauth_accounts u = Some [] ->
  oauth_rows (fst (update self u db)) = oauth_rows db
  /\ (forall db' r,
       update self u db = (db', Returns r) ->
       user_db_model self = true ->
       get self (id (user_dict u)) db'
       = (db', Returns (Some (mkUD (user_dict u)
                                (Some (related db (id (user_dict u)))))))).
Proof.
  intros Hon Hoa.
  assert (Hskip : truthy (oauth_accounts u) && oauth_account_model self = false)
    by now rewrite Hoa.
  split; [now apply update_user_row_only_rows|].
  intros db' r H Hud. rewrite (update_user_row_only _ _ _ Hskip) in H.
  destruct (filter _ (users db)) as [|u0 [|u1 us]] eqn:F; try discriminate H.
  destruct (valid_user _); [|discriminate H].
  destruct (existsb _ (users db)); [discriminate H|].
  injection H as <- <-.
  match goal with
  | |- get _ _ ?d = _ =>
      rewrite (@get_after_update_row self u db d u0 F eq_refl)
  end.
  rewrite found_loaded by now left.
  unfold translate. now rewrite Hud.
Qed.

Lemma update_with_empty_identity_list_keeps_rows_witness :
  let input := mkUD (mkUser 1 "alice@y.org" "h9" true false true "alice")
                 (Some []) in
  let db' := fst (update Sample.store input Sample.db_alice) in
  update Sample.store input Sample.db_alice = (db', Returns input)
  /\ oauth_rows db' = [mkRow 1 Sample.google]
  /\ get Sample.store 1 db'
     = (db', Returns (Some (mkUD (user_dict input) (Some [Sample.google])))).
Proof.
  intros input db'.
  destruct (update_with_empty_identity_list_keeps_rows
              Sample.store Sample.db_alice input eq_refl eq_refl) as [Hrows Hget].
  split; [reflexivity|]. split; [exact Hrows|].
  apply (Hget db' input); reflexivity.
Defined.

(** ** Stores built without an identity model *)

(** C8. On a store constructed without an external-identity model, [create]
    and [update] with an input carrying a non-empty identity set do no
    identity handling: the identity table is never written, the outcome is
    the one of the same call with the identity set dropped, and where the
    user row is accepted (its values pass the checks of the columns and its
    keys are free) the call returns its input with the row persisted. *)
Theorem store_without_identity_model_skips_identities
  (self : TortoiseUserDatabase) (db : DB) (u : UD)
  (a : OAuth.t) (l : list OAuth.t) :
  oauth_account_model self = false ->
  oauth_accounts u = Some (a :: l) ->
  (oauth_rows (fst (create self u db)) = oauth_rows db
   /\ fst (create self u db) = fst (create self (without_identities u) db)
   /\ (forall e, snd (create self u db) = Raises e <->
                 snd (create self (without_identities u) db) = Raises e)
   /\ (valid_user (user_dict u) = true ->
       existsb (same_key (user_dict u)) (users db) = false ->
       create self u db
       = (with_users db (users db ++ [user_dict u]), Returns u)))
  /\ (oauth_rows (fst (update self u db)) = oauth_rows db
      /\ fst (update self u db) = fst (update self (without_identities u) db)
      /\ (forall e, snd (update self u db) = Raises e <->
                    snd (update self (without_identities u) db) = Raises e)
      /\ (forall u0,
           valid_user (user_dict u) = true ->
           filter (has_id (id (user_dict u))) (users db) = [u0] ->
           existsb (clashes (user_dict u)) (users db) = false ->
           update self u db
           = (with_users db (map (replace_row (user_dict u)) (users db)),
              Returns u))).
Proof.
  intros Hoff _.
  assert (Hskip : truthy (oauth_accounts u) && oauth_account_model self = false)
    by (rewrite Hoff; apply andb_false_r).
  assert (Hskip' : truthy (oauth_accounts (without_identities u))
                   && oauth_account_model self = false) by reflexivity.
  split.
  - rewrite (create_user_row_only _ _ _ Hskip), (create_user_row_only _ _ _ Hskip').
    cbn [without_identities user_dict].
    destruct (valid_user _); [destruct (existsb _ (users db))|];
      repeat split; intros; trivial; try discriminate; try congruence.
  - rewrite (update_user_row_only _ _ _ Hskip), (update_user_row_only _ _ _ Hskip').
    cbn [without_identities user_dict].
    destruct (filter _ (users db)) as [|u0 [|u1 us]];
      [| destruct (valid_user _); [destruct (existsb _ (users db))|] |];
      repeat split; intros; trivial; try discriminate; try congruence.
Qed.

Lemma store_without_identity_model_skips_identities_witness :
  let self := Sample.store_without_identities in
  let new := mkUD Sample.carol (Some [Sample.github]) in
  let changed := mkUD (mkUser 1 "alice@y.org" "h9" true false true "alice")
                   (Some [Sample.github]) in
  create self new Sample.db_alice
  = (mkDB [Sample.alice; Sample.carol] [mkRow 1 Sample.google], Returns new)
  /\ update self changed Sample.db_alice
     = (mkDB [user_dict changed] [mkRow 1 Sample.google], Returns changed).
Proof.
  intros self new changed. split.
  - destruct (store_without_identity_model_skips_identities
                self Sample.db_alice new (a := Sample.github) (l := [])
                eq_refl eq_refl) as [(_ & _ & _ & H) _].
    apply H; reflexivity.
  - destruct (store_without_identity_model_skips_identities
                self Sample.db_alice changed (a := Sample.github) (l := [])
                eq_refl eq_refl) as [_ (_ & _ & _ & H)].
    apply (H Sample.alice); reflexivity.
Defined.

(** ** Round trip *)

(** Counterexample to C4 as stated.  On a store built without an identity
    model whose representation declares the identity set, [create] of a
    new record returns it, and [get] of its identifier raises
    [NoValuesFetched]: no record comes back, and the identity set of the
    input was not stored. *)
Lemma create_then_get_without_identity_model_raises :
  let self := Sample.store_without_identities in
  let u := mkUD Sample.carol (Some [Sample.github]) in
  let db' := mkDB [Sample.alice; Sample.carol] [mkRow 1 Sample.google] in
  oauth_account_model self = false
  /\ create self u Sample.db_alice = (db', Returns u)
  /\ related db' 3 = []
  /\ get self 3 db' = (db', Raises NoValuesFetched).
Proof. intros self u db'. repeat split. Qed.

(** C4 (amended). On a store that loads the identities its representation
    declares (it was built with an identity model, or its representation
    declares no identity set), for an input that is an instance of that
    representation, whose values pass the checks of the columns and whose
    identifier, email and username are not taken (and, where identities are
    handled, whose identity rows are accepted), [create] returns the input
    as given and [get] of its identifier then returns a record identical to
    the input, identity set included. *)
Theorem create_then_get_round_trip
  (self : TortoiseUserDatabase) (db : DB) (u : UD) :
  oauth_account_model self = true \/ user_db_model self = false ->
  instance_of self u = true ->
  fk_ok db = true ->
  valid_user (user_dict u) = true ->
  existsb (same_key (user_dict u)) (users db) = false ->
  (oauth_account_model self = true ->
   refusal (oauth_rows db)
     (map (mkRow (id (user_dict u))) (accounts_of (oauth_accounts u))) = None) ->
  exists db',
    create self u db = (db', Returns u)
    /\ get self (id (user_dict u)) db' = (db', Returns (Some u)).
Proof.
  intros Hload Hinst Hfk Hvalid Hkey Hins. rewrite create_eq. cbv zeta.
  rewrite Hvalid, Hkey.
  pose proof (fresh_key_fresh_id _ _ Hkey) as Hfresh.
  pose proof (no_rows_of_absent_user _ db Hfk Hfresh) as Hnone.
  unfold instance_of in Hinst. apply Bool.eqb_prop in Hinst.
  destruct (truthy (oauth_accounts u) && oauth_account_model self) eqn:Hdo.
  - apply andb_true_iff in Hdo as [Htruthy Hon]. rewrite (Hins Hon).
    eexists. split; [reflexivity|].
    match goal with
    | |- get _ _ ?d = _ =>
        rewrite (@get_after_insert self db d (user_dict u) Hfresh eq_refl)
    end.
    rewrite found_loaded by exact Hload.
    unfold translate, related. db_simpl.
    rewrite filter_app, map_app, Hnone, related_of_new. simpl.
    destruct u as [d [[|b l]|]]; try discriminate Htruthy. simpl in *.
    now rewrite Hinst.
  - eexists. split; [reflexivity|].
    match goal with
    | |- get _ _ ?d = _ =>
        rewrite (@get_after_insert self db d (user_dict u) Hfresh eq_refl)
    end.
    rewrite found_loaded by exact Hload.
    unfold translate, related. db_simpl.
    replace (oauth_rows (with_users db (users db ++ [user_dict u])))
      with (oauth_rows db) by reflexivity.
    rewrite Hnone. simpl.
    destruct u as [d [l|]]; simpl in *; rewrite Hinst; [|reflexivity].
    destruct Hload as [Hon | Hoff]; [|congruence].
    rewrite Hon, andb_true_r in Hdo.
    destruct l; [reflexivity | discriminate Hdo].
Qed.

Lemma create_then_get_round_trip_witness :
  let u := mkUD Sample.carol (Some [Sample.github]) in
  let db' := mkDB [Sample.alice; Sample.carol]
                  [mkRow 1 Sample.google; mkRow 3 Sample.github] in
  create Sample.store u Sample.db_alice = (db', Returns u)
  /\ get Sample.store 3 db' = (db', Returns (Some u)).
Proof.
  intros u db'.
  destruct (create_then_get_round_trip Sample.store Sample.db_alice u
              (or_introl eq_refl) eq_refl eq_refl eq_refl eq_refl
              (fun _ => eq_refl))
    as (db1 & Hc & Hg).
  assert (Hdb : db1 = db') by (injection Hc as <-; reflexivity).
  rewrite Hdb in Hg. split; [reflexivity | exact Hg].
Defined.

(** ** Lookup by external identity *)

Section ByOAuthAccount.

Variables oauth acct : string.

(** The join reads the two tables only. *)
Lemma oauth_join_tables (db : DB) :
  oauth_join oauth acct db
  = oauth_join oauth acct (mkDB (users db) (oauth_rows db)).
Proof. reflexivity. Qed.

(** A database with an identity row has the identity table. *)
Lemma rows_declared (db : DB) (r : OAuthRow) :
  In r (oauth_rows db) -> declared db = true.
Proof. unfold oauth_rows, declared. now destruct (oauth_table db). Qed.

Lemma oauth_match_key (i : UUID4) (r : OAuthRow) :
  oauth_match oauth acct i r = owned_by i r && oauth_key oauth acct r.
Proof. unfold oauth_match, oauth_key. now rewrite andb_assoc. Qed.

Lemma no_key_no_match (i : UUID4) (rs : list OAuthRow) :
  existsb (oauth_key oauth acct) rs = false ->
  filter (oauth_match oauth acct i) rs = [].
Proof.
  intros H. apply filter_none.
  induction rs as [|r rs IH]; simpl in *; [reflexivity|].
  apply orb_false_iff in H as [Hr Hrs].
  now rewrite (IH Hrs), oauth_match_key, Hr, andb_false_r.
Qed.

(** When one row only carries the key, the join is the selection of the
    owner of that row. *)
Lemma join_of_single_row (us : list TortoiseBaseUserModel)
  (r1 r2 : list OAuthRow) (r : OAuthRow) :
  existsb (oauth_key oauth acct) r1 = false ->
  oauth_key oauth acct r = true ->
  existsb (oauth_key oauth acct) r2 = false ->
  oauth_join oauth acct (mkDB us (r1 ++ r :: r2)) = filter (has_id (user r)) us.
Proof.
  intros H1 Hr H2. unfold oauth_join. db_simpl.
  induction us as [|u us IH]; simpl; [reflexivity|].
  rewrite IH, filter_app, (no_key_no_match _ _ H1). simpl.
  rewrite (no_key_no_match _ _ H2), oauth_match_key, Hr, andb_true_r.
  unfold owned_by, has_id. rewrite (N.eqb_sym (user r)).
  now destruct (id u =? user r).
Qed.

(** The number of results of the join, for a table [us] of users and a
    table of identity rows. *)
Lemma join_length_app (us : list TortoiseBaseUserModel) (a b : list OAuthRow) :
  List.length (oauth_join oauth acct (mkDB us (a ++ b)))
  = (List.length (oauth_join oauth acct (mkDB us a))
     + List.length (oauth_join oauth acct (mkDB us b)))%nat.
Proof.
  unfold oauth_join. db_simpl.
  induction us as [|u us IH]; simpl; [reflexivity|].
  rewrite !List.length_app, !List.length_map, IH, filter_app, List.length_app.
  lia.
Qed.

Lemma join_length_owner (us : list TortoiseBaseUserModel) (r : OAuthRow) :
  oauth_key oauth acct r = true ->
  existsb (has_id (user r)) us = true ->
  (1 <= List.length (oauth_join oauth acct (mkDB us [r])))%nat.
Proof.
  intros Hr. unfold oauth_join. db_simpl.
  induction us as [|u us IH]; simpl; [discriminate|].
  rewrite oauth_match_key, Hr, andb_true_r. unfold owned_by, has_id at 1.
  rewrite (N.eqb_sym (user r)).
  destruct (id u =? user r); simpl; [lia | exact IH].
Qed.

End ByOAuthAccount.

Lemma in_oauth_join (oauth acct : string) (db : DB) (u : TortoiseBaseUserModel) :
  In u (oauth_join oauth acct db) ->
  In u (users db)
  /\ exists r, In r (oauth_rows db) /\ user r = id u
               /\ OAuth.oauth_name (account r) = oauth
               /\ OAuth.account_id (account r) = acct.
Proof.
  unfold oauth_join. intros H. apply in_flat_map in H as (v & Hv & H).
  apply in_map_iff in H as (r & <- & Hr). apply filter_In in Hr as [Hr Hm].
  split; [exact Hv|]. exists r. split; [exact Hr|].
  unfold oauth_match, owned_by in Hm.
  apply andb_true_iff in Hm as [Hm Hacct]. apply andb_true_iff in Hm as [Hown Hname].
  apply N.eqb_eq in Hown. apply String.eqb_eq in Hname, Hacct. auto.
Qed.

(** X1. When exactly one identity row carries the pair (provider, provider
    account id) and exactly one stored user owns it, [get_by_oauth_account]
    returns that user, with all the identities linked to it, and leaves the
    store as it is. *)
Theorem get_by_oauth_account_returns_owner
  (self : TortoiseUserDatabase) (db : DB) (oauth acct : string)
  (r1 r2 : list OAuthRow) (r : OAuthRow) (u : TortoiseBaseUserModel) :
  oauth_rows db = r1 ++ r :: r2 ->
  existsb (oauth_key oauth acct) r1 = false ->
  oauth_key oauth acct r = true ->
  existsb (oauth_key oauth acct) r2 = false ->
  filter (has_id (user r)) (users db) = [u] ->
  get_by_oauth_account self oauth acct db
  = (db, Returns (Some (translate self db u))).
Proof.
  intros Hrows H1 Hr H2 Hu. rewrite get_by_oauth_account_eq.
  rewrite (rows_declared db r)
    by (rewrite Hrows; apply in_or_app; right; now left).
  rewrite oauth_join_tables, Hrows.
  now rewrite (join_of_single_row oauth acct (users db) r1 r2 r H1 Hr H2), Hu.
Qed.

Lemma get_by_oauth_account_returns_owner_witness :
  let db := mkDB [Sample.alice; Sample.carol]
                 [mkRow 3 Sample.google; mkRow 1 Sample.github;
                  mkRow 1 (OAuth.mk 12 "google" "t" None None "g2" "a@x.com")] in
  get_by_oauth_account Sample.store "github" "h7" db
  = (db, Returns (Some (mkUD Sample.alice
       (Some [Sample.github;
              OAuth.mk 12 "google" "t" None None "g2" "a@x.com"])))).
Proof.
  intros db.
  apply (@get_by_oauth_account_returns_owner Sample.store db "github" "h7"
           [mkRow 3 Sample.google]
           [mkRow 1 (OAuth.mk 12 "google" "t" None None "g2" "a@x.com")]
           (mkRow 1 Sample.github) Sample.alice); reflexivity.
Defined.

(** X2. The pair (provider, provider account id) is not checked to be
    unique: when two identity rows with stored owners carry it,
    [get_by_oauth_account] raises [MultipleObjectsReturned], which it does
    not catch, and leaves the store as it is. *)
Theorem get_by_oauth_account_raises_on_shared_identity
  (self : TortoiseUserDatabase) (db : DB) (oauth acct : string)
  (r1 r2 r3 : list OAuthRow) (r r' : OAuthRow) :
  oauth_rows db = r1 ++ r :: r2 ++ r' :: r3 ->
  oauth_key oauth acct r = true ->
  oauth_key oauth acct r' = true ->
  existsb (has_id (user r)) (users db) = true ->
  existsb (has_id (user r')) (users db) = true ->
  get_by_oauth_account self oauth acct db
  = (db, Raises MultipleObjectsReturned).
Proof.
  intros Hrows Hr Hr' Hu Hu'. rewrite get_by_oauth_account_eq.
  rewrite (rows_declared db r)
    by (rewrite Hrows; apply in_or_app; right; now left).
  rewrite oauth_join_tables, Hrows.
  pose proof (join_length_owner oauth acct (users db) r Hr Hu) as L.
  pose proof (join_length_owner oauth acct (users db) r' Hr' Hu') as L'.
  assert (Hlen : (2 <= List.length
            (oauth_join oauth acct
               (mkDB (users db) (r1 ++ r :: r2 ++ r' :: r3))))%nat).
  { change (r :: r2 ++ r' :: r3) with ([r] ++ r2 ++ [r'] ++ r3).
    rewrite !join_length_app. lia. }
  clear L L'.
  destruct (oauth_join _ _ _) as [|a [|b l]]; simpl in Hlen; try lia.
  reflexivity.
Qed.

Lemma get_by_oauth_account_raises_on_shared_identity_witness :
  let db := mkDB [Sample.alice; Sample.carol]
                 [mkRow 1 Sample.google; mkRow 1 Sample.github;
                  mkRow 3 (OAuth.mk 12 "google" "t" None None "g1" "c@x.com")] in
  get_by_oauth_account Sample.store "google" "g1" db
  = (db, Raises MultipleObjectsReturned).
Proof.
  intros db.
  apply (@get_by_oauth_account_raises_on_shared_identity Sample.store db
           "google" "g1" [] [mkRow 1 Sample.github] []
           (mkRow 1 Sample.google)
           (mkRow 3 (OAuth.mk 12 "google" "t" None None "g1" "c@x.com")));
    reflexivity.
Defined.

(** X3. A record [get] or [get_by_oauth_account] returns is a stored row:
    [get] returns only a row with the identifier asked for, and
    [get_by_oauth_account] only a user owning an identity row whose provider
    and provider account id are exactly the ones asked for.  Both leave the
    store as it is. *)
Theorem lookups_return_stored_rows
  (self : TortoiseUserDatabase) (db db' : DB) (v : UD)
  (i : UUID4) (oauth acct : string) :
  (get self i db = (db', Returns (Some v)) ->
   db' = db /\ In (user_dict v) (users db) /\ id (user_dict v) = i)
  /\ (get_by_oauth_account self oauth acct db = (db', Returns (Some v)) ->
      db' = db /\ In (user_dict v) (users db)
      /\ exists r, In r (oauth_rows db) /\ user r = id (user_dict v)
                   /\ OAuth.oauth_name (account r) = oauth
                   /\ OAuth.account_id (account r) = acct).
Proof.
  split; intros H.
  - rewrite get_eq in H.
    destruct (filter (has_id i) (users db)) as [|u [|w l]] eqn:F;
      try discriminate H.
    unfold found in H. destruct (_ || _); [|discriminate H].
    injection H as <- <-. split; [reflexivity|]. cbn [translate user_dict].
    assert (Hin : In u (filter (has_id i) (users db))) by (rewrite F; now left).
    apply filter_In in Hin as [Hin Hid]. split; [exact Hin | now apply N.eqb_eq].
  - rewrite get_by_oauth_account_eq in H.
    destruct (declared db); [|discriminate H].
    destruct (oauth_join oauth acct db) as [|u [|w l]] eqn:J;
      try discriminate H.
    injection H as <- <-. split; [reflexivity|]. cbn [translate user_dict].
    apply in_oauth_join. rewrite J. now left.
Qed.

Lemma lookups_return_stored_rows_witness :
  let db := Sample.db_alice_bob in
  let v := mkUD Sample.alice (Some [Sample.google]) in
  (In Sample.alice (users db) /\ id Sample.alice = 1)
  /\ exists r, In r (oauth_rows db) /\ user r = 1
               /\ OAuth.oauth_name (account r) = "google"
               /\ OAuth.account_id (account r) = "g1".
Proof.
  intros db v.
  destruct (@lookups_return_stored_rows Sample.store db db v 1 "google" "g1")
    as [Hg Ho].
  split.
  - destruct (Hg eq_refl) as (_ & Hin & Hid). split; [exact Hin | exact Hid].
  - destruct (Ho eq_refl) as (_ & _ & Hr). exact Hr.
Defined.

(** ** What a write leaves alone *)

Section Frame.

Variables i j : UUID4.
Hypothesis Hij : j <> i.

Lemma other_not_owned (r : OAuthRow) : owned_by j r = true -> owned_by i r = false.
Proof.
  unfold owned_by. intros H. apply N.eqb_eq in H. apply N.eqb_neq. congruence.
Qed.

Lemma other_has_not (u : TortoiseBaseUserModel) :
  has_id j u = true -> has_id i u = false.
Proof.
  unfold has_id. intros H. apply N.eqb_eq in H. apply N.eqb_neq. congruence.
Qed.

Lemma filter_other_replaced (m : TortoiseBaseUserModel)
  (us : list TortoiseBaseUserModel) :
  id m = i ->
  filter (has_id j) (map (replace_row m) us) = filter (has_id j) us.
Proof.
  intros Hm. induction us as [|v us IH]; simpl; [reflexivity|].
  rewrite IH. unfold replace_row. rewrite Hm.
  destruct (has_id i v) eqn:E; [|reflexivity].
  assert (Hv : has_id j v = false).
  { destruct (has_id j v) eqn:Ej; [|reflexivity].
    apply other_has_not in Ej. congruence. }
  assert (Hjm : has_id j m = false)
    by (unfold has_id; apply N.eqb_neq; congruence).
  now rewrite Hv, Hjm.
Qed.

Lemma filter_other_deleted (us : list TortoiseBaseUserModel) :
  filter (has_id j) (filter (fun u => negb (has_id i u)) us)
  = filter (has_id j) us.
Proof.
  induction us as [|v us IH]; simpl; [reflexivity|].
  destruct (has_id i v) eqn:E; simpl.
  - rewrite IH. destruct (has_id j v) eqn:Ej; [|reflexivity].
    apply other_has_not in Ej. congruence.
  - now rewrite IH.
Qed.

Lemma filter_other_kept (rs : list OAuthRow) :
  filter (owned_by j) (filter (not_owned_by i) rs) = filter (owned_by j) rs.
Proof.
  induction rs as [|r rs IH]; simpl; [reflexivity|].
  unfold not_owned_by at 1. destruct (owned_by i r) eqn:E; simpl.
  - rewrite IH. destruct (owned_by j r) eqn:Ej; [|reflexivity].
    apply other_not_owned in Ej. congruence.
  - now rewrite IH.
Qed.

Lemma filter_other_new (l : list OAuth.t) :
  filter (owned_by j) (map (mkRow i) l) = [].
Proof.
  induction l as [|a l IH]; simpl; [reflexivity|].
  rewrite IH. unfold owned_by. simpl.
  assert (H : (i =? j) = false) by (apply N.eqb_neq; congruence).
  now rewrite H.
Qed.

End Frame.

Section FrameOfCalls.

Variable self : TortoiseUserDatabase.

(** The rows of another user, and the identity rows it owns, are the same
    before and after [create], [update] and [delete]. *)
Lemma create_frame (u : UD) (db : DB) (j : UUID4) :
  j <> id (user_dict u) ->
  filter (has_id j) (users (fst (create self u db))) = filter (has_id j) (users db)
  /\ filter (owned_by j) (oauth_rows (fst (create self u db)))
     = filter (owned_by j) (oauth_rows db).
Proof.
  intros Hj.
  destruct (create_shape self u db) as [-> | (_ & _ & -> & Hrs)];
    [now split|].
  split.
  - rewrite filter_app. simpl.
    assert (H : has_id j (user_dict u) = false)
      by (unfold has_id; apply N.eqb_neq; congruence).
    rewrite H. apply app_nil_r.
  - destruct Hrs as [-> | [_ ->]]; [reflexivity|].
    now rewrite filter_app, (filter_other_new Hj), app_nil_r.
Qed.

Lemma update_frame (u : UD) (db : DB) (j : UUID4) :
  j <> id (user_dict u) ->
  filter (has_id j) (users (fst (update self u db))) = filter (has_id j) (users db)
  /\ filter (owned_by j) (oauth_rows (fst (update self u db)))
     = filter (owned_by j) (oauth_rows db).
Proof.
  intros Hj.
  destruct (update_shape self u db) as [-> | (_ & _ & -> & Hrs)];
    [now split|].
  split; [apply (filter_other_replaced Hj (user_dict u) (users db) eq_refl)|].
  pose proof (filter_other_kept Hj (oauth_rows db)) as Hkept.
  destruct Hrs as [-> | [-> | [_ ->]]]; trivial.
  now rewrite filter_app, (filter_other_new Hj), app_nil_r.
Qed.

Lemma delete_frame (u : UD) (db : DB) (j : UUID4) :
  j <> id (user_dict u) ->
  filter (has_id j) (users (fst (delete u db))) = filter (has_id j) (users db)
  /\ filter (owned_by j) (oauth_rows (fst (delete u db)))
     = filter (owned_by j) (oauth_rows db).
Proof.
  intros Hj. destruct (delete_shape u db) as [-> | [-> ->]]; [now split|].
  split.
  - apply (filter_other_deleted Hj).
  - apply (filter_other_kept Hj).
Qed.

(** [get] answers from the rows with the identifier and the identity rows
    they own, and from nothing else. *)
Lemma get_depends_on_own_rows (db db' : DB) (j : UUID4) :
  filter (has_id j) (users db') = filter (has_id j) (users db) ->
  filter (owned_by j) (oauth_rows db') = filter (owned_by j) (oauth_rows db) ->
  snd (get self j db') = snd (get self j db).
Proof.
  intros Hus Hrs. rewrite !get_eq, Hus.
  destruct (filter (has_id j) (users db)) as [|u [|w l]] eqn:F; try reflexivity.
  unfold found. destruct (_ || _); [|reflexivity].
  cbn [snd]. unfold translate, related.
  now rewrite (filter_has_id _ _ F), Hrs.
Qed.

End FrameOfCalls.

(** X4. A call of [create], [update] or [delete] with a record of one
    identifier, whether it returns or raises, never changes what [get]
    answers for another identifier: neither the row nor the identity set
    returned. *)
Theorem writes_leave_other_users
  (self : TortoiseUserDatabase) (db : DB) (c : call) (j : UUID4) :
  j <> id (user_dict (record_of c)) ->
  snd (get self j (after_call self db c)) = snd (get self j db).
Proof.
  intros Hj. apply get_depends_on_own_rows; destruct c as [u|u|u]; simpl in *.
  - now apply create_frame.
  - now apply update_frame.
  - now apply delete_frame.
  - now apply create_frame.
  - now apply update_frame.
  - now apply delete_frame.
Qed.

Lemma writes_leave_other_users_witness :
  let changed := mkUD (mkUser 2 "bob@y.org" "h9" false false true "bobby")
                   (Some [Sample.github]) in
  snd (get Sample.store 1 (fst (update Sample.store changed Sample.db_alice_bob)))
  = Returns (Some (mkUD Sample.alice (Some [Sample.google])))
  /\ snd (get Sample.store 1 (fst (delete changed Sample.db_alice_bob)))
     = Returns (Some (mkUD Sample.alice (Some [Sample.google]))).
Proof.
  intros changed. split.
  - refine (eq_trans (@writes_leave_other_users Sample.store
                        Sample.db_alice_bob (Update changed) 1 _) eq_refl).
    discriminate.
  - refine (eq_trans (@writes_leave_other_users Sample.store
                        Sample.db_alice_bob (Delete changed) 1 _) eq_refl).
    discriminate.
Defined.

(** ** Refused writes *)

Lemma taken_key (d v : TortoiseBaseUserModel) (us : list TortoiseBaseUserModel) :
  In v us ->
  id v = id d \/ email v = email d \/ username v = username d ->
  existsb (same_key d) us = true.
Proof.
  intros Hv H. apply existsb_exists. exists v. split; [exact Hv|].
  unfold same_key. destruct H as [H | [H | H]]; rewrite H.
  - now rewrite N.eqb_refl.
  - now rewrite String.eqb_refl, orb_true_r.
  - now rewrite String.eqb_refl, orb_true_r.
Qed.

(** X5. [create] with a record whose values pass the checks of the columns
    and whose identifier, email or username is the one of a stored row
    raises [IntegrityError] at the first statement: no user row and no
    identity row is written.  In particular a second [create] of the same
    record is refused. *)
Theorem create_of_taken_key_raises
  (self : TortoiseUserDatabase) (db : DB) (u : UD) (v : TortoiseBaseUserModel) :
  valid_user (user_dict u) = true ->
  In v (users db) ->
  id v = id (user_dict u) \/ email v = email (user_dict u)
  \/ username v = username (user_dict u) ->
  create self u db = (db, Raises IntegrityError).
Proof.
  intros Hvalid Hv H. rewrite create_eq. cbv zeta.
  now rewrite Hvalid, (taken_key (user_dict u) v (users db) Hv H).
Qed.

Lemma create_of_taken_key_raises_witness :
  let u := mkUD (mkUser 4 "A@x.com" "h4" true false false "dave")
             (Some [Sample.github]) in
  create Sample.store u Sample.db_alice_bob
  = (Sample.db_alice_bob, Raises IntegrityError).
Proof.
  intros u.
  apply (@create_of_taken_key_raises Sample.store Sample.db_alice_bob u
           Sample.alice).
  - reflexivity.
  - simpl. left. reflexivity.
  - right. left. reflexivity.
Defined.

(** X6. [create] is not atomic.  On a store with an identity model, when
    the user row is accepted and the bulk insert of the identities is
    refused (a value fails the check of its column, an integer does not
    fit, or a primary key is taken), [create] raises the exception of the
    bulk insert with the user row already stored: a following [get] finds
    the user, and a following [create] of the same record is refused. *)
Theorem create_keeps_user_row_when_identities_are_refused
  (self : TortoiseUserDatabase) (db : DB) (u : UD)
  (a : OAuth.t) (l : list OAuth.t) (e : exn) :
  oauth_account_model self = true ->
  oauth_accounts u = Some (a :: l) ->
  valid_user (user_dict u) = true ->
  existsb (same_key (user_dict u)) (users db) = false ->
  refusal (oauth_rows db) (map (mkRow (id (user_dict u))) (a :: l)) = Some e ->
  let db' := with_users db (users db ++ [user_dict u]) in
  create self u db = (db', Raises e)
  /\ get self (id (user_dict u)) db'
     = (db', Returns (Some (translate self db' (user_dict u))))
  /\ create self u db' = (db', Raises IntegrityError).
Proof.
  intros Hon Hoa Hvalid Hkey Hins db'. split; [|split].
  - rewrite create_eq. cbv zeta.
    rewrite Hvalid, Hkey, Hoa, truthy_cons, Hon. unfold andb, accounts_of.
    now rewrite Hins.
  - rewrite (@get_after_insert self db db' (user_dict u)
               (fresh_key_fresh_id _ _ Hkey) eq_refl).
    apply found_loaded. now left.
  - rewrite create_eq. cbv zeta. rewrite Hvalid.
    rewrite (taken_key (user_dict u) (user_dict u) (users db')); [reflexivity| |].
    + subst db'. db_simpl. apply in_or_app. right. now left.
    + now left.
Qed.

Lemma create_keeps_user_row_when_identities_are_refused_witness :
  let u := mkUD Sample.carol (Some [Sample.github; Sample.google]) in
  let db' := mkDB [Sample.alice; Sample.bob; Sample.carol] [mkRow 1 Sample.google] in
  create Sample.store u Sample.db_alice_bob = (db', Raises IntegrityError)
  /\ get Sample.store 3 db' = (db', Returns (Some (mkUD Sample.carol (Some []))))
  /\ create Sample.store u db' = (db', Raises IntegrityError).
Proof.
  intros u db'.
  apply (@create_keeps_user_row_when_identities_are_refused Sample.store
           Sample.db_alice_bob u Sample.github [Sample.google] IntegrityError);
    reflexivity.
Defined.

Lemma taken_by_other (d v : TortoiseBaseUserModel)
  (us : list TortoiseBaseUserModel) :
  In v us -> id v <> id d ->
  email v = email d \/ username v = username d ->
  existsb (clashes d) us = true.
Proof.
  intros Hv Hid H. apply existsb_exists. exists v. split; [exact Hv|].
  unfold clashes. apply N.eqb_neq in Hid. rewrite Hid. simpl.
  destruct H as [H | H]; rewrite H, String.eqb_refl; [reflexivity|].
  apply orb_true_r.
Qed.

(** X7. [update] of a stored record, with values that pass the checks of
    the columns, to an email or a username another stored row holds raises
    [IntegrityError] and leaves the store as it was: the row keeps its old
    fields and no identity row is touched. *)
Theorem update_to_taken_key_raises
  (self : TortoiseUserDatabase) (db : DB) (u : UD)
  (u0 v : TortoiseBaseUserModel) :
  valid_user (user_dict u) = true ->
  filter (has_id (id (user_dict u))) (users db) = [u0] ->
  In v (users db) ->
  id v <> id (user_dict u) ->
  email v = email (user_dict u) \/ username v = username (user_dict u) ->
  update self u db = (db, Raises IntegrityError).
Proof.
  intros Hvalid F Hv Hid H. rewrite update_eq, F. cbv zeta.
  rewrite (setattrs_same u0 (user_dict u) (filter_has_id _ _ F)), Hvalid.
  now rewrite (taken_by_other (user_dict u) v (users db) Hv Hid H).
Qed.

Lemma update_to_taken_key_raises_witness :
  let u := mkUD (mkUser 2 "A@x.com" "h2" true false false "Alice")
             (Some [Sample.github]) in
  update Sample.store u Sample.db_alice_bob
  = (Sample.db_alice_bob, Raises IntegrityError).
Proof.
  intros u.
  apply (@update_to_taken_key_raises Sample.store Sample.db_alice_bob u
           Sample.bob Sample.alice).
  - reflexivity.
  - reflexivity.
  - simpl. left. reflexivity.
  - discriminate.
  - left. reflexivity.
Defined.

(** X8. [update] is not atomic.  On a store with an identity model, when
    the user row is accepted and the bulk insert of the new identities is
    refused (a value fails the check of its column, an integer does not
    fit, or a primary key is taken), [update] raises the exception of the
    bulk insert with the user row already overwritten and the identities the
    user had already deleted. *)
Theorem update_loses_identities_when_new_ones_are_refused
  (self : TortoiseUserDatabase) (db : DB) (u : UD)
  (u0 : TortoiseBaseUserModel) (a : OAuth.t) (l : list OAuth.t) (e : exn) :
  oauth_account_model self = true ->
  oauth_accounts u = Some (a :: l) ->
  valid_user (user_dict u) = true ->
  filter (has_id (id (user_dict u))) (users db) = [u0] ->
  existsb (clashes (user_dict u)) (users db) = false ->
  refusal (filter (not_owned_by (id (user_dict u))) (oauth_rows db))
          (map (mkRow (id (user_dict u))) (a :: l)) = Some e ->
  let db' := mkDB (map (replace_row (user_dict u)) (users db))
                  (filter (not_owned_by (id (user_dict u))) (oauth_rows db)) in
  update self u db = (db', Raises e)
  /\ related db' (id (user_dict u)) = []
  /\ get self (id (user_dict u)) db'
     = (db', Returns (Some (translate self db' (user_dict u)))).
Proof.
  intros Hon Hoa Hvalid F Hclash Hins db'. split; [|split].
  - rewrite update_eq, F. cbv zeta.
    rewrite (setattrs_same u0 (user_dict u) (filter_has_id _ _ F)).
    rewrite Hvalid, Hclash, Hoa, truthy_cons, Hon. unfold andb, accounts_of.
    now rewrite Hins.
  - unfold related. subst db'. db_simpl.
    rewrite (filter_none (owned_by (id (user_dict u)))); [reflexivity|].
    apply existsb_filter_negb.
  - rewrite (@get_after_update_row self u db db' u0 F eq_refl).
    apply found_loaded. now left.
Qed.

Lemma update_loses_identities_when_new_ones_are_refused_witness :
  let db := mkDB [Sample.alice; Sample.carol]
                 [mkRow 1 Sample.google; mkRow 3 Sample.github] in
  let u := mkUD (mkUser 1 "alice@y.org" "h9" true false true "alice")
             (Some [Sample.github]) in
  let db' := mkDB [user_dict u; Sample.carol] [mkRow 3 Sample.github] in
  update Sample.store u db = (db', Raises IntegrityError)
  /\ related db' 1 = []
  /\ get Sample.store 1 db' = (db', Returns (Some (mkUD (user_dict u) (Some [])))).
Proof.
  intros db u db'.
  apply (@update_loses_identities_when_new_ones_are_refused Sample.store db u
           Sample.alice Sample.github [] IntegrityError); reflexivity.
Defined.

(** ** Update, then get *)



(** ** Stores built by the adapter *)

Lemma after_calls_from (self : TortoiseUserDatabase) (cs : list call) (db : DB) :
  ids_ok db = true -> fk_ok db = true -> columns_ok db = true ->
  ids_ok (fold_left (after_call self) cs db) = true
  /\ fk_ok (fold_left (after_call self) cs db) = true
  /\ columns_ok (fold_left (after_call self) cs db) = true.
Proof.
  revert db. induction cs as [|c cs IH]; intros db Hids Hfk Hcol;
    [now repeat split|].
  simpl. apply IH; destruct c as [u|u|u]; simpl.
  - now apply create_keeps_ids.
  - now apply update_keeps_ids.
  - now apply delete_keeps_ids.
  - now apply create_keeps_fk.
  - now apply update_keeps_fk.
  - now apply delete_keeps_fk.
  - now apply create_keeps_columns.
  - now apply update_keeps_columns.
  - now apply delete_keeps_columns.
Qed.

(** X10. In a store built from the empty one by any sequence of [create],
    [update] and [delete] calls, failed calls included, no two rows share an
    identifier; there, on a store that loads the identities its
    representation declares, [get] never raises: it returns the row with
    the identifier if there is one, and the empty result otherwise. *)
Theorem get_never_raises_after_calls
  (self : TortoiseUserDatabase) (cs : list call) (i : UUID4) :
  let db := after_calls self cs in
  NoDup (map id (users db))
  /\ (oauth_account_model self = true \/ user_db_model self = false ->
      get self i db
      = (db, Returns (option_map (translate self db)
                        (find (has_id i) (users db))))).
Proof.
  intros db.
  destruct (after_calls_from self cs empty_db) as (Hids & _); try reflexivity.
  fold (after_calls self cs) in Hids. fold db in Hids.
  split; [now apply distinct_spec|]. intros Hload.
  rewrite (get_total self i db Hids).
  assert (Hfind : hd_error (filter (has_id i) (users db))
                  = find (has_id i) (users db)).
  { induction (users db) as [|v us IH]; simpl; [reflexivity|].
    now destruct (has_id i v). }
  rewrite Hfind. destruct (find _ _); [|reflexivity].
  now apply found_loaded.
Qed.

Lemma get_never_raises_after_calls_witness :
  let cs := [Create (mkUD Sample.alice (Some [Sample.google]));
             Create (mkUD Sample.alice None);
             Update (mkUD Sample.bob None);
             Create (mkUD Sample.bob None)] in
  after_calls Sample.store cs = Sample.db_alice_bob
  /\ get Sample.store 2 Sample.db_alice_bob
     = (Sample.db_alice_bob, Returns (Some (mkUD Sample.bob (Some [])))).
Proof.
  intros cs. split; [reflexivity|].
  destruct (get_never_raises_after_calls Sample.store cs 2) as [_ H].
  apply (H (or_introl eq_refl)).
Defined.

(** X11. In such a store every identity row is owned by a stored user:
    [create] and [update] insert identity rows for the row they have just
    written only, and [delete] leaves no row of the user it removes. *)
Theorem identity_rows_have_owners_after_calls
  (self : TortoiseUserDatabase) (cs : list call) (r : OAuthRow) :
  let db := after_calls self cs in
  In r (oauth_rows db) ->
  exists v, In v (users db) /\ id v = user r.
Proof.
  intros db.
  destruct (after_calls_from self cs empty_db) as (_ & Hfk & _);
    try reflexivity.
  fold (after_calls self cs) in Hfk. fold db in Hfk.
  now apply fk_ok_spec.
Qed.

Lemma identity_rows_have_owners_after_calls_witness :
  let cs := [Create (mkUD Sample.alice (Some [Sample.google]));
             Create (mkUD Sample.carol (Some [Sample.github]));
             Update (mkUD Sample.bob (Some [Sample.github]));
             Delete (mkUD Sample.alice None)] in
  after_calls Sample.store cs = mkDB [Sample.carol] [mkRow 3 Sample.github]
  /\ exists v, In v [Sample.carol] /\ id v = 3.
Proof.
  intros cs. split; [reflexivity|].
  apply (@identity_rows_have_owners_after_calls Sample.store cs
           (mkRow 3 Sample.github)).
  simpl. left. reflexivity.
Defined.

(** ** Letter case of the key *)

(** X12. Keys that differ by letter case only are the same key for
    [get_by_email] and [get_by_username]: the two lookups return the same
    result on every store. *)
Theorem lookup_ignores_case_of_key
  (self : TortoiseUserDatabase) (db : DB) (k k' : string) :
  upper k = upper k' ->
  get_by_email self k db = get_by_email self k' db
  /\ get_by_username self k db = get_by_username self k' db.
Proof.
  intros H. rewrite !get_by_email_eq, !get_by_username_eq.
  assert (He : filter (by_email k) (users db) = filter (by_email k') (users db)).
  { apply filter_ext. intros u. unfold by_email, iexact. now rewrite H. }
  assert (Hn : filter (by_username k) (users db)
               = filter (by_username k') (users db)).
  { apply filter_ext. intros u. unfold by_username, iexact. now rewrite H. }
  now rewrite He, Hn.
Qed.

Lemma lookup_ignores_case_of_key_witness :
  get_by_email Sample.store "C@X.com" (mkDB [Sample.alice; Sample.carol] [])
  = get_by_email Sample.store "c@x.COM" (mkDB [Sample.alice; Sample.carol] [])
  /\ get_by_username Sample.store "C@X.com" (mkDB [Sample.alice; Sample.carol] [])
     = get_by_username Sample.store "c@x.COM"
         (mkDB [Sample.alice; Sample.carol] []).
Proof.
  apply (@lookup_ignores_case_of_key Sample.store
           (mkDB [Sample.alice; Sample.carol] []) "C@X.com" "c@x.COM").
  reflexivity.
Defined.

(** ** Create, then look up *)

Lemma create_returns (self : TortoiseUserDatabase) (u r : UD) (db db' : DB) :
  create self u db = (db', Returns r) ->
  r = u
  /\ existsb (same_key (user_dict u)) (users db) = false
  /\ users db' = users db ++ [user_dict u]
  /\ oauth_rows db'
     = oauth_rows db
       ++ (if truthy (oauth_accounts u) && oauth_account_model self
           then map (mkRow (id (user_dict u))) (accounts_of (oauth_accounts u))
           else []).
Proof.
  intros H. rewrite create_eq in H. cbv zeta in H.
  destruct (valid_user _); [|discriminate H].
  destruct (existsb _ (users db)); [discriminate H|].
  destruct (truthy _ && _); [destruct (refusal _ _)|];
    try discriminate H; injection H as <- <-; db_simpl;
    repeat split; trivial.
  now rewrite app_nil_r.
Qed.

(** X13. After a [create] that returns, on a store that loads the
    identities its representation declares, [get_by_email] with the email
    of the new record in any letter case returns the new record, provided no
    row stored before matches that key; otherwise it still returns the row
    it returned before.  [get_by_username] does the same on the username. *)
Theorem create_then_lookup_by_key
  (self : TortoiseUserDatabase) (db db' : DB) (u r : UD) (k : string) :
  oauth_account_model self = true \/ user_db_model self = false ->
  create self u db = (db', Returns r) ->
  (upper (email (user_dict u)) = upper k ->
   existsb (by_email k) (users db) = false ->
   get_by_email self k db' = (db', Returns (Some (translate self db' (user_dict u)))))
  /\ (upper (username (user_dict u)) = upper k ->
      existsb (by_username k) (users db) = false ->
      get_by_username self k db'
      = (db', Returns (Some (translate self db' (user_dict u)))))
  /\ (forall v, hd_error (filter (by_email k) (users db)) = Some v ->
      get_by_email self k db' = (db', Returns (Some (translate self db' v))))
  /\ (forall v, hd_error (filter (by_username k) (users db)) = Some v ->
      get_by_username self k db' = (db', Returns (Some (translate self db' v)))).
Proof.
  intros Hload H. apply create_returns in H as (_ & _ & Hus & _).
  split; [|split; [|split]].
  - intros Hk Hnone. rewrite get_by_email_eq, Hus.
    rewrite (filter_first (by_email k) (users db) [] (user_dict u) Hnone);
      [now apply found_loaded|]. now apply iexact_upper.
  - intros Hk Hnone. rewrite get_by_username_eq, Hus.
    rewrite (filter_first (by_username k) (users db) [] (user_dict u) Hnone);
      [now apply found_loaded|]. now apply iexact_upper.
  - intros v Hv. rewrite get_by_email_eq, Hus, filter_app.
    destruct (filter (by_email k) (users db)) as [|w l]; [discriminate Hv|].
    injection Hv as ->. now apply found_loaded.
  - intros v Hv. rewrite get_by_username_eq, Hus, filter_app.
    destruct (filter (by_username k) (users db)) as [|w l]; [discriminate Hv|].
    injection Hv as ->. now apply found_loaded.
Qed.

Lemma create_then_lookup_by_key_witness :
  let u := mkUD Sample.carol None in
  let db' := mkDB [Sample.alice; Sample.bob; Sample.carol] [mkRow 1 Sample.google] in
  create Sample.store u Sample.db_alice_bob = (db', Returns u)
  /\ get_by_email Sample.store "C@X.COM" db'
     = (db', Returns (Some (mkUD Sample.carol (Some []))))
  /\ get_by_username Sample.store "Carol" db'
     = (db', Returns (Some (mkUD Sample.carol (Some []))))
  /\ get_by_email Sample.store "a@x.com" db'
     = (db', Returns (Some (mkUD Sample.alice (Some [Sample.google])))).
Proof.
  intros u db'. split; [reflexivity|].
  destruct (@create_then_lookup_by_key Sample.store Sample.db_alice_bob db' u u
              "C@X.COM" (or_introl eq_refl) eq_refl) as (He & _).
  destruct (@create_then_lookup_by_key Sample.store Sample.db_alice_bob db' u u
              "Carol" (or_introl eq_refl) eq_refl) as (_ & Hn & _).
  destruct (@create_then_lookup_by_key Sample.store Sample.db_alice_bob db' u u
              "a@x.com" (or_introl eq_refl) eq_refl) as (_ & _ & Hold & _).
  split; [apply He; reflexivity|].
  split; [apply Hn; reflexivity|].
  apply (Hold Sample.alice). reflexivity.
Defined.

Lemma key_of_new_rows (oauth acct : string) (i : UUID4) (l : list OAuth.t) :
  existsb (oauth_key oauth acct) (map (mkRow i) l)
  = existsb (account_key oauth acct) l.
Proof. induction l as [|a l IH]; simpl; [reflexivity|]. now rewrite IH. Qed.

(** X14. After a [create] that returns, on a store with an identity model,
    [get_by_oauth_account] with the provider and provider account id of one
    of the identities of the input returns the new user, provided no
    identity row stored before and no other identity of the input carries
    that pair; the identities linked to the new user are the ones of the
    input, in their order. *)
Theorem create_then_get_by_oauth_account
  (self : TortoiseUserDatabase) (db db' : DB) (u r : UD)
  (oauth acct : string) (l1 l2 : list OAuth.t) (a : OAuth.t) :
  oauth_account_model self = true ->
  oauth_accounts u = Some (l1 ++ a :: l2) ->
  create self u db = (db', Returns r) ->
  account_key oauth acct a = true ->
  existsb (account_key oauth acct) l1 = false ->
  existsb (account_key oauth acct) l2 = false ->
  existsb (oauth_key oauth acct) (oauth_rows db) = false ->
  get_by_oauth_account self oauth acct db'
  = (db', Returns (Some (translate self db' (user_dict u))))
  /\ (fk_ok db = true -> related db' (id (user_dict u)) = l1 ++ a :: l2).
Proof.
  intros Hon Hoa H Ha H1 H2 Hrows.
  apply create_returns in H as (_ & Hkey & Hus & Hrs).
  assert (Ht : truthy (oauth_accounts u) = true)
    by (rewrite Hoa; now destruct l1).
  rewrite Ht, Hon, Hoa in Hrs. cbn [andb accounts_of] in Hrs.
  pose proof (fresh_key_fresh_id _ _ Hkey) as Hfresh.
  rewrite map_app, app_assoc in Hrs. cbn [map] in Hrs.
  split.
  - rewrite get_by_oauth_account_eq.
    rewrite (rows_declared db' (mkRow (id (user_dict u)) a))
      by (rewrite Hrs; apply in_or_app; right; now left).
    rewrite oauth_join_tables, Hus, Hrs.
    rewrite (join_of_single_row oauth acct (users db ++ [user_dict u])
               (oauth_rows db ++ map (mkRow (id (user_dict u))) l1)
               (map (mkRow (id (user_dict u))) l2)
               (mkRow (id (user_dict u)) a)).
    + cbn [user]. rewrite filter_app, (filter_none _ _ Hfresh). simpl.
      assert (Hd : has_id (id (user_dict u)) (user_dict u) = true)
        by apply N.eqb_refl.
      now rewrite Hd.
    + now rewrite existsb_app, Hrows, key_of_new_rows, H1.
    + exact Ha.
    + now rewrite key_of_new_rows.
  - intros Hfk. unfold related. rewrite Hrs, <- app_assoc, filter_app, map_app.
    rewrite (no_rows_of_absent_user _ db Hfk Hfresh).
    change (map (mkRow (id (user_dict u))) l1
            ++ mkRow (id (user_dict u)) a :: map (mkRow (id (user_dict u))) l2)
      with (map (mkRow (id (user_dict u))) l1
            ++ map (mkRow (id (user_dict u))) (a :: l2)).
    now rewrite <- (map_app (mkRow (id (user_dict u)))), related_of_new.
Qed.

Lemma create_then_get_by_oauth_account_witness :
  let u := mkUD Sample.carol
             (Some [Sample.github;
                    OAuth.mk 12 "google" "t" None None "g2" "c@x.com"]) in
  let db' := mkDB [Sample.alice; Sample.bob; Sample.carol]
               [mkRow 1 Sample.google; mkRow 3 Sample.github;
                mkRow 3 (OAuth.mk 12 "google" "t" None None "g2" "c@x.com")] in
  create Sample.store u Sample.db_alice_bob = (db', Returns u)
  /\ get_by_oauth_account Sample.store "google" "g2" db'
     = (db', Returns (Some u)).
Proof.
  intros u db'. split; [reflexivity|].
  destruct (@create_then_get_by_oauth_account Sample.store Sample.db_alice_bob
              db' u u "google" "g2" [Sample.github] []
              (OAuth.mk 12 "google" "t" None None "g2" "c@x.com")
              eq_refl eq_refl eq_refl eq_refl eq_refl eq_refl eq_refl)
    as [H _].
  exact H.
Defined.

(** ** Get, then update *)

Section Resubmission.

Lemma same_pk_same_row (rs : list OAuthRow) (a b : OAuthRow) :
  NoDup (map pk rs) -> In a rs -> In b rs -> pk a = pk b -> a = b.
Proof.
  induction rs as [|r rs IH]; simpl; [contradiction|].
  rewrite NoDup_cons_iff. intros [Hr Hrs] [Ha|Ha] [Hb|Hb] Hpk; subst; auto.
  - exfalso. apply Hr. rewrite Hpk. now apply in_map.
  - exfalso. apply Hr. rewrite <- Hpk. now apply in_map.
Qed.

Lemma pks_of_kept (q : OAuthRow -> bool) (rs : list OAuthRow) :
  NoDup (map pk rs) -> NoDup (map pk (filter q rs)).
Proof.
  induction rs as [|r rs IH]; simpl; [trivial|].
  rewrite NoDup_cons_iff. intros [Hr Hrs]. destruct (q r); [|auto].
  simpl. apply NoDup_cons; [|auto].
  intros Hin. apply Hr. apply in_map_iff in Hin as (w & Hw & Hin).
  apply filter_In in Hin as [Hin _]. apply in_map_iff. now exists w.
Qed.

(** The identity rows of a user can be inserted again once they have been
    deleted. *)
Lemma own_rows_insertable (i : UUID4) (rs : list OAuthRow) :
  distinct (map pk rs) = true ->
  insertable (filter (not_owned_by i) rs) (filter (owned_by i) rs) = true.
Proof.
  intros Hd. apply distinct_spec in Hd. apply insertable_spec.
  split; [now apply pks_of_kept|].
  intros x Hx Hx'.
  apply in_map_iff in Hx as (a & <- & Ha). apply filter_In in Ha as [Ha Hown].
  apply in_map_iff in Hx' as (b & Hpk & Hb). apply filter_In in Hb as [Hb Hnot].
  assert (Hab : b = a) by now apply (same_pk_same_row rs).
  subst b. unfold not_owned_by in Hnot. rewrite Hown in Hnot. discriminate Hnot.
Qed.

Lemma own_rows_accepted (i : UUID4) (db : DB) :
  columns_ok db = true ->
  distinct (map pk (oauth_rows db)) = true ->
  refusal (filter (not_owned_by i) (oauth_rows db))
          (filter (owned_by i) (oauth_rows db)) = None.
Proof.
  intros Hcol Hd. apply refusal_none. split; [|now apply own_rows_insertable].
  unfold columns_ok in Hcol. apply andb_true_iff in Hcol as [_ Hrows].
  apply forallb_forall. intros r Hr. apply filter_In in Hr as [Hr _].
  revert r Hr. now apply forallb_forall.
Qed.

Lemma own_rows_rebuilt (i : UUID4) (rs : list OAuthRow) :
  map (mkRow i) (map account (filter (owned_by i) rs)) = filter (owned_by i) rs.
Proof.
  induction rs as [|r rs IH]; simpl; [reflexivity|].
  destruct (owned_by i r) eqn:E; [|exact IH].
  simpl. rewrite IH. f_equal. unfold owned_by in E. apply N.eqb_eq in E.
  destruct r. simpl in *. now subst.
Qed.

Lemma replace_by_itself (d : TortoiseBaseUserModel)
  (us : list TortoiseBaseUserModel) :
  filter (has_id (id d)) us = [d] -> map (replace_row d) us = us.
Proof.
  intros F.
  assert (H : forall w, In w us -> has_id (id d) w = true -> w = d).
  { intros w Hw Hid.
    assert (Hin : In w (filter (has_id (id d)) us)) by now apply filter_In.
    rewrite F in Hin. destruct Hin as [<-|[]]. reflexivity. }
  clear F. induction us as [|v us IH]; simpl; [reflexivity|].
  rewrite IH by (intros w Hw; apply H; now right). f_equal.
  unfold replace_row. destruct (has_id (id d) v) eqn:E; [|reflexivity].
  symmetry. apply H; [now left | exact E].
Qed.

Lemma related_after_resubmission (i : UUID4) (rs : list OAuthRow) :
  map account (filter (owned_by i)
                 (filter (not_owned_by i) rs ++ filter (owned_by i) rs))
  = map account (filter (owned_by i) rs).
Proof.
  pose proof (related_after_replace i rs
                (map account (filter (owned_by i) rs))) as H.
  now rewrite own_rows_rebuilt in H.
Qed.

End Resubmission.

(** X15. A record returned by [get] can be handed back to [update].  On a
    store with an identity model, where the stored rows pass the checks of
    their columns (they were written through the adapter), no other row
    holds the email or the username of the record and the identity rows
    have distinct primary keys, [update] of the record [get] returned
    returns: the identities the user had are deleted and inserted again
    without a key conflict, the user rows are the same as before, and [get]
    returns the same record again. *)
Theorem update_of_fetched_record_is_stable
  (self : TortoiseUserDatabase) (db : DB) (i : UUID4) (v : UD) :
  oauth_account_model self = true ->
  user_db_model self = true ->
  get self i db = (db, Returns (Some v)) ->
  columns_ok db = true ->
  existsb (clashes (user_dict v)) (users db) = false ->
  distinct (map pk (oauth_rows db)) = true ->
  exists db',
    update self v db = (db', Returns v)
    /\ users db' = users db
    /\ get self i db' = (db', Returns (Some v)).
Proof.
  intros Hon Hud Hget Hcol Hclash Hpk. rewrite get_eq in Hget.
  destruct (filter (has_id i) (users db)) as [|u0 [|u1 us]] eqn:F;
    try discriminate Hget.
  rewrite found_loaded in Hget by now left.
  injection Hget as <-. unfold translate in *. rewrite Hud in *.
  cbn [user_dict] in *.
  pose proof (filter_has_id _ _ F) as Hid. subst i.
  pose proof (@replace_by_itself u0 (users db) F) as Hsame.
  assert (Hvalid : valid_user u0 = true).
  { unfold columns_ok in Hcol. apply andb_true_iff in Hcol as [Hus _].
    assert (Hin : In u0 (filter (has_id (id u0)) (users db)))
      by (rewrite F; now left).
    apply filter_In in Hin as [Hin _].
    exact (proj1 (forallb_forall valid_user (users db)) Hus u0 Hin). }
  rewrite update_eq. cbn [user_dict oauth_accounts]. rewrite F. cbv zeta.
  rewrite (setattrs_same u0 u0 eq_refl), Hvalid, Hclash, Hon, andb_true_r, Hsame.
  destruct (related db (id u0)) as [|a l] eqn:R.
  - cbn [truthy]. exists (with_users db (users db)).
    split; [reflexivity|]. split; [reflexivity|].
    rewrite get_eq. db_simpl. rewrite F, found_loaded by now left.
    unfold translate. rewrite Hud. unfold related in *.
    replace (oauth_rows (with_users db (users db))) with (oauth_rows db)
      by reflexivity.
    now rewrite R.
  - cbn [truthy accounts_of]. rewrite <- R. clear R. unfold related.
    rewrite own_rows_rebuilt, (own_rows_accepted _ db Hcol Hpk).
    eexists. split; [reflexivity|]. split; [reflexivity|].
    rewrite get_eq. db_simpl. rewrite F, found_loaded by now left.
    unfold translate. rewrite Hud.
    unfold related. db_simpl.
    now rewrite related_after_resubmission.
Qed.

Lemma update_of_fetched_record_is_stable_witness :
  let db := mkDB [Sample.alice; Sample.carol]
              [mkRow 1 Sample.google; mkRow 3 Sample.github;
               mkRow 1 (OAuth.mk 12 "google" "t" None None "g2" "a@x.com")] in
  let v := mkUD Sample.alice
             (Some [Sample.google;
                    OAuth.mk 12 "google" "t" None None "g2" "a@x.com"]) in
  get Sample.store 1 db = (db, Returns (Some v))
  /\ exists db',
       update Sample.store v db = (db', Returns v)
       /\ users db' = users db
       /\ get Sample.store 1 db' = (db', Returns (Some v)).
Proof.
  intros db v. split; [reflexivity|].
  apply (@update_of_fetched_record_is_stable Sample.store db 1 v);
    reflexivity.
Defined.
